(** * Target inference of the PHPUnit plugin (packages/phpunit)

    A shallow embedding of the plugin's [createNodesV2] entry point and of
    the functions it is built from, together with the properties of the
    inferred targets.

    JavaScript strings are modelled as [string]; objects used as
    dictionaries ([targets], [targetGroups], the memoization store) as
    [gmap string _]; optional properties as [option]; thrown errors as the
    [Err] branch of [result]. *)

From Stdlib Require Import Ascii String.
From stdpp Require Import gmap strings list.

Local Open Scope string_scope.
Local Open Scope list_scope.

(** ** JavaScript string primitives *)

Module Js.

(** Truthiness of a string: every string but the empty one. *)
Definition truthy (s : string) : bool := negb (String.eqb s "").

(** Truthiness of [string | undefined]. *)
Definition truthyOpt (o : option string) : bool :=
  match o with
  | Some s => truthy s
  | None => false
  end.

(** [a ?? b] *)
Definition nullish {A} (o : option A) (d : A) : A :=
  match o with
  | Some a => a
  | None => d
  end.

(** [s.split(c)] for a one-character separator. *)
Fixpoint split (c : ascii) (s : string) : list string :=
  match s with
  | EmptyString => [""]
  | String a s' =>
      if Ascii.eqb a c then "" :: split c s'
      else match split c s' with
           | h :: t => String a h :: t
           | [] => [String a ""]
           end
  end.

(** [l.join(sep)] *)
Definition join (sep : string) (l : list string) : string :=
  String.concat sep l.

(** [s.replace(/[cs]/g, by)]: every character satisfying [p] becomes [by]. *)
Fixpoint replaceAll (p : ascii -> bool) (by_ : ascii) (s : string) : string :=
  match s with
  | EmptyString => EmptyString
  | String a s' => String (if p a then by_ else a) (replaceAll p by_ s')
  end.

(** [s.includes(c)] for a character. *)
Fixpoint includesChar (c : ascii) (s : string) : bool :=
  match s with
  | EmptyString => false
  | String a s' => Ascii.eqb a c || includesChar c s'
  end.

(** [s.startsWith(p)] *)
Fixpoint startsWith (s p : string) {struct p} : bool :=
  match p, s with
  | EmptyString, _ => true
  | String _ _, EmptyString => false
  | String b p', String a s' => Ascii.eqb a b && startsWith s' p'
  end.

(** [s.endsWith(p)] *)
Definition endsWith (s p : string) : bool :=
  startsWith (String.rev s) (String.rev p).

(** [new Set(); add ...; Array.from]: insertion order, no repetition. *)
Definition setAdd (l : list string) (x : string) : list string :=
  if bool_decide (x ∈ l) then l else l ++ [x].

End Js.

(** ** The POSIX flavour of Node's [node:path] *)

Module Path.

Definition isSlash (a : ascii) : bool := Ascii.eqb a "/".

Definition isAbsolute (p : string) : bool :=
  match p with
  | String a _ => isSlash a
  | EmptyString => false
  end.

(** One segment of [normalizeString]; [res] holds the segments kept so
    far, the most recent first. *)
Definition normalizeStep (allowAboveRoot : bool) (res : list string)
    (seg : string) : list string :=
  if String.eqb seg "" || String.eqb seg "." then res
  else if String.eqb seg ".." then
    match res with
    | top :: rest =>
        if String.eqb top ".."
        then (if allowAboveRoot then ".." :: res else res)
        else rest
    | [] => if allowAboveRoot then [".."] else []
    end
  else seg :: res.

Definition normalizeSegments (allowAboveRoot : bool) (segs : list string)
    : list string :=
  rev (fold_left (normalizeStep allowAboveRoot) segs []).

Definition normalizeString (path : string) (allowAboveRoot : bool) : string :=
  Js.join "/" (normalizeSegments allowAboveRoot (Js.split "/" path)).

Fixpoint lastChar (p : string) : option ascii :=
  match p with
  | EmptyString => None
  | String a EmptyString => Some a
  | String _ p' => lastChar p'
  end.

(** [path.charCodeAt(path.length - 1) === CHAR_FORWARD_SLASH] *)
Definition hasTrailingSlash (p : string) : bool :=
  match lastChar p with
  | Some a => isSlash a
  | None => false
  end.

(** [path.normalize] *)
Definition normalize (path : string) : string :=
  if String.eqb path "" then "."
  else
    let isAbs := isAbsolute path in
    let trailing := hasTrailingSlash path in
    let p := normalizeString path (negb isAbs) in
    if String.eqb p "" then
      (if isAbs then "/" else if trailing then "./" else ".")
    else
      let p' := if trailing then p +:+ "/" else p in
      if isAbs then "/" +:+ p' else p'.

(** [path.join(...args)] *)
Definition join (args : list string) : string :=
  match filter (λ a, a ≠ "") args with
  | [] => "."
  | parts => normalize (Js.join "/" parts)
  end.

(** The loop of [path.resolve]: the arguments from the last one to the
    first, then the working directory, until an absolute one is met. *)
Fixpoint resolveFrom (paths : list string) (resolved : string)
    : string * bool :=
  match paths with
  | [] => (resolved, false)
  | p :: rest =>
      if String.eqb p "" then resolveFrom rest resolved
      else
        let resolved' := p +:+ "/" +:+ resolved in
        if isAbsolute p then (resolved', true)
        else resolveFrom rest resolved'
  end.

(** [path.resolve(...args)], with [cwd] standing for [process.cwd()]. *)
Definition resolve (cwd : string) (args : list string) : string :=
  let '(resolved, isAbs) := resolveFrom (rev args ++ [cwd]) "" in
  let p := normalizeString resolved (negb isAbs) in
  if isAbs then "/" +:+ p
  else if String.eqb p "" then "." else p.

(** The segments of a resolved path. *)
Definition segments (p : string) : list string :=
  filter (λ s, s ≠ "") (Js.split "/" p).

Fixpoint stripCommon (from to : list string) : list string * list string :=
  match from, to with
  | f :: from', t :: to' =>
      if String.eqb f t then stripCommon from' to' else (from, to)
  | _, _ => (from, to)
  end.

(** [path.relative(from, to)] *)
Definition relative (cwd : string) (from to : string) : string :=
  if String.eqb from to then ""
  else
    let from' := resolve cwd [from] in
    let to' := resolve cwd [to] in
    if String.eqb from' to' then ""
    else
      let '(up, down) := stripCommon (segments from') (segments to') in
      Js.join "/" (replicate (length up) ".." ++ down).

Definition ofChars (l : list ascii) : string := string_of_list_ascii l.
Definition toChars (s : string) : list ascii := list_ascii_of_string s.

Fixpoint dropWhile {A} (p : A -> bool) (l : list A) : list A :=
  match l with
  | x :: l' => if p x then dropWhile p l' else l
  | [] => []
  end.

Fixpoint takeWhile {A} (p : A -> bool) (l : list A) : list A :=
  match l with
  | x :: l' => if p x then x :: takeWhile p l' else []
  | [] => []
  end.

Definition notSlash (a : ascii) : bool := negb (isSlash a).

(** [path.dirname] *)
Definition dirname (path : string) : string :=
  match toChars path with
  | [] => "."
  | c :: tl =>
      let hasRoot := isSlash c in
      (* scan from the right over the indices >= 1 *)
      let r1 := dropWhile isSlash (rev tl) in
      match dropWhile notSlash r1 with
      | [] => if hasRoot then "/" else "."
      | _ :: r3 =>
          if hasRoot && bool_decide (r3 = []) then "//"
          else ofChars (c :: rev r3)
      end
  end.

Record ParsedPath := {
  dir : string;
  base : string;
  ext : string;
}.

(** The extension of a base name: from its last dot on, unless there is
    no dot, the last dot is the first character, or the name is [".."]. *)
Definition extOf (dotdotIsPlain : bool) (b : list ascii) : list ascii :=
  let afterDot := takeWhile (λ a, negb (Ascii.eqb a ".")) (rev b) in
  let upToDot := dropWhile (λ a, negb (Ascii.eqb a ".")) (rev b) in
  match upToDot with
  | [] => []                                   (* no dot *)
  | _dot :: before =>
      if bool_decide (before = []) then []     (* the dot comes first *)
      else if dotdotIsPlain && bool_decide (b = ["."%char; "."%char]) then []
      else "."%char :: rev afterDot
  end.

(** [path.parse], the fields [dir], [base] and [ext]. *)
Definition parse (path : string) : ParsedPath :=
  match toChars path with
  | [] => {| dir := ""; base := ""; ext := "" |}
  | c :: tl =>
      let isAbs := isSlash c in
      let region := if isAbs then tl else c :: tl in
      let r1 := dropWhile isSlash (rev region) in
      let b := rev (takeWhile notSlash r1) in
      match dropWhile notSlash r1 with
      | [] =>
          (* no separator before the base: startPart = 0 *)
          {| dir := if isAbs then "/" else "";
             base := ofChars b;
             ext := ofChars (extOf (negb isAbs) b) |}
      | _ :: r3 =>
          {| dir := ofChars ((if isAbs then [c] else []) ++ rev r3);
             base := ofChars b;
             ext := ofChars (extOf true b) |}
      end
  end.

End Path.

(** ** Path helpers of [@nx/devkit] *)

Module Devkit.

Definition isUpper (a : ascii) : bool :=
  let n := nat_of_ascii a in (65 <=? n)%nat && (n <=? 90)%nat.

(** Whether [/^[A-Z]:/] matches. *)
Definition hasDriveLetter (p : string) : bool :=
  match p with
  | String a (String b _) => isUpper a && Ascii.eqb b ":"
  | _ => false
  end.

(** [osSpecificPath.replace(/^[A-Z]:/, '')] *)
Definition removeWindowsDriveLetter (p : string) : string :=
  match p with
  | String a (String b rest) =>
      if isUpper a && Ascii.eqb b ":" then rest else p
  | _ => p
  end.

(** [normalizePath]: drive letter removed, back slashes turned forward. *)
Definition normalizePath (p : string) : string :=
  Js.join "/" (Js.split "\" (removeWindowsDriveLetter p)).

(** [joinPathFragments(...fragments)] *)
Definition joinPathFragments (fragments : list string) : string :=
  normalizePath (Path.join fragments).

End Devkit.

(** ** [minimatch] *)

Module Minimatch.

Definition startsWithDot (seg : string) : bool := Js.startsWith seg ".".

(** [minimatch(path, '**/*' + suffix)] with the default options. The path
    is split on runs of slashes, so that an empty segment shows only at its
    two ends: a leading one is swallowed by the globstar, and a trailing
    one is accepted once the pattern is used up. Every directory segment is
    matched by the globstar, which refuses segments that start with a dot;
    the file name must end with [suffix] and, being matched by a leading
    star, must not start with a dot either. *)
Definition globstarStar (suffix : string) (path : string) : bool :=
  match
    rev (List.filter (λ seg, negb (String.eqb seg "")) (Js.split "/" path))
  with
  | [] => false
  | file :: dirs =>
      forallb (λ d, negb (startsWithDot d)) dirs
      && negb (startsWithDot file)
      && Js.endsWith file suffix
  end.

End Minimatch.

(** ** Data model *)

Inductive result (E A : Type) : Type :=
  | Ok (a : A)
  | Err (e : E).
Arguments Ok {E A} a.
Arguments Err {E A} e.

(** What a call into the file system or a parser can throw. *)
Inductive error : Type :=
  | FsError (path : string)
  | XmlError (message : string)
  | JsonError (message : string)
  | TypeError (message : string).

Definition bind {E A B} (r : result E A) (k : A -> result E B) : result E B :=
  match r with
  | Ok a => k a
  | Err e => Err e
  end.

Notation "x <- r ;; k" := (bind r (λ x, k))
  (at level 100, r at next level, right associativity).

Record PhpUnitPluginOptions := {
  opt_targetName : option string;
  opt_ciTargetName : option string;
}.

Record NormalizedOptions := {
  targetName : string;
  ciTargetName : option string;
}.

Record PhpUnitTestSuite := {
  suiteName : string;                 (* '@_name' *)
  directory : option string;
}.

Record PhpUnitCoverage := {
  cacheDirectory : option string;     (* '@_cacheDirectory' *)
}.

(** [PhpUnitConfiguration], the interface the parsed configuration is cast
    to. [cacheResultFile] and [coverage] are keys of the object itself;
    [testsuite] stands for the path [phpunit.testsuites.testsuite], which
    the interface makes mandatory: an object without it, on which the
    builder throws when it reaches the path, is not a value of the
    interface. [coverage] is optional because the code reads it with
    [?.]. *)
Record PhpUnitConfiguration := {
  cacheResultFile : option string;    (* '@_cacheResultFile' *)
  testsuite : PhpUnitTestSuite;
  coverage : option PhpUnitCoverage;
}.

(** The parts of a [phpunit.xml] document the plugin is after: the
    [cacheResultFile] attribute of the root element [<phpunit>], the
    [cacheDirectory] attribute of the [<coverage>] element inside the
    root, and the [<testsuite>] inside [<testsuites>]. *)
Record PhpUnitDocument := {
  rootCacheResultFile : option string;
  coverageCacheDirectory : option string;
  documentSuite : PhpUnitTestSuite;
}.

(** [parser.parse(content)] for such a document, attributes being kept
    under the prefix [@_]: the root element is the key [phpunit] of the
    object the parser returns, and its attributes and child elements are
    keys of the value found there. Read as a [PhpUnitConfiguration], the
    path [phpunit.testsuites.testsuite] leads to the suite, and the keys
    ['@_cacheResultFile'] and [coverage] of the object itself are
    undefined, whatever the document declares. *)
Definition parsePhpUnitDocument (doc : PhpUnitDocument)
    : PhpUnitConfiguration :=
  {| cacheResultFile := None;
     testsuite := documentSuite doc;
     coverage := None |}.

Record TargetOptions := { cwd : string }.

Record TargetHelp := {
  helpCommand : string;
  exampleArgs : list string;
}.

Record TargetMetadata := {
  technologies : list string;
  description : string;
  nonAtomizedTarget : option string;
  help : TargetHelp;
}.

Record TargetDependency := {
  target : string;
  projects : string;
  params : string;
}.

Record TargetConfiguration := {
  command : option string;
  executor : option string;
  options : option TargetOptions;
  cache : option bool;
  inputs : option (list string);
  outputs : option (list string);
  dependsOn : option (list TargetDependency);
  parallelism : option bool;
  metadata : option TargetMetadata;
}.

Record ProjectMetadata := {
  targetGroups : gmap string (list string);
}.

(** [Pick<ProjectConfiguration, 'targets' | 'metadata'>] *)
Record PhpUnitTargets := {
  targets : gmap string TargetConfiguration;
  projectMetadata : option ProjectMetadata;
}.

Record ProjectConfiguration := {
  name : option string;
  root : string;
  projectTargets : gmap string TargetConfiguration;
  projectMeta : option ProjectMetadata;
}.

(** What [createNodesInternal] returns: [{}] is [projectsOf := None]. *)
Record CreateNodesResult := {
  projectsOf : option (gmap string ProjectConfiguration);
}.

Record CreateNodesContext := {
  workspaceRoot : string;
}.

(** [JSON.parse] of the manifest: [null], or a value whose [name] property
    may be missing. *)
Inductive ComposerJson : Type :=
  | JsonNull
  | JsonValue (name : option string).

(** The memoization store, [Record<string, PhpUnitTargets>]. *)
Abbreviation Store := (gmap string PhpUnitTargets).

(** The environment the plugin runs in: the file system, the parsers and
    the helpers of the host build tool, none of them part of the plugin. *)
Record Host := {
  processCwd : string;
  readdirSync : string -> result error (list string);
  readFileSync : string -> result error string;
  xmlParse : string -> result error PhpUnitConfiguration;
  jsonParse : string -> result error ComposerJson;
  getNamedInputs : string -> CreateNodesContext -> gset string;
  calculateHashForCreateNodes :
    string -> NormalizedOptions -> CreateNodesContext -> list string -> string;
  getFilesInDirectoryUsingContext : string -> string -> list string;
  hashObject : PhpUnitPluginOptions -> string;
  workspaceDataDirectory : string;
}.

(** ** The plugin *)

Definition normalizeOptions (o : PhpUnitPluginOptions) : NormalizedOptions :=
  {| targetName := Js.nullish (opt_targetName o) "test";
     ciTargetName := Some (Js.nullish (opt_ciTargetName o) "test-ci") |}.

Definition getTestOutput (phpUnitConfig : PhpUnitConfiguration) : string :=
  match cacheResultFile phpUnitConfig with
  | Some f => if Js.truthy f then f else ".phpunit.cache/test-results"
  | None => ".phpunit.cache/test-results"
  end.

Definition getCoverageOutput (phpUnitConfig : PhpUnitConfiguration)
    : option string :=
  match coverage phpUnitConfig with
  | Some c => cacheDirectory c
  | None => None
  end.

Definition addSubfolderToOutput (output : string) (subfolder : option string)
    : string :=
  match subfolder with
  | None => output
  | Some sub =>
      if negb (Js.truthy sub) then output
      else
        let parts := Path.parse output in
        if negb (String.eqb (Path.ext parts) "")
        then Path.join [Path.dir parts; sub; Path.base parts]
        else Path.join [output; sub]
  end.

Section WithHost.

Variable h : Host.

Definition normalizeOutput (path workspaceRoot projectRoot : string)
    : string :=
  let fullProjectRoot :=
    Path.resolve (processCwd h) [workspaceRoot; projectRoot] in
  let fullPath := Path.resolve (processCwd h) [fullProjectRoot; path] in
  let pathRelativeToProjectRoot :=
    Devkit.normalizePath
      (Path.relative (processCwd h) fullProjectRoot fullPath) in
  if Js.startsWith pathRelativeToProjectRoot ".." then
    Devkit.joinPathFragments
      ["{workspaceRoot}";
       Path.relative (processCwd h) workspaceRoot fullPath]
  else Devkit.joinPathFragments ["{projectRoot}"; pathRelativeToProjectRoot].

Definition getTargetOutputs (testOutput : string)
    (coverageOutput : option string) (workspaceRoot projectRoot : string)
    (subFolder : option string) : list string :=
  let outputs :=
    Js.setAdd []
      (normalizeOutput (addSubfolderToOutput testOutput subFolder)
         workspaceRoot projectRoot) in
  match coverageOutput with
  | Some cov =>
      if Js.truthy cov then
        Js.setAdd outputs
          (normalizeOutput (addSubfolderToOutput cov subFolder)
             workspaceRoot projectRoot)
      else outputs
  | None => outputs
  end.

Definition phpunitHelp : TargetHelp :=
  {| helpCommand := "./vendor/bin/phpunit --help";
     exampleArgs := ["--colors"] |}.

Definition baseTargetConfig : TargetConfiguration :=
  {| command := Some "./vendor/bin/phpunit";
     executor := None;
     options := Some {| cwd := "{projectRoot}" |};
     cache := None;
     inputs := None;
     outputs := None;
     dependsOn := None;
     parallelism := Some false;
     metadata :=
       Some {| technologies := ["php"];
               description := "Runs PHPUnit Tests";
               nonAtomizedTarget := None;
               help := phpunitHelp |} |}.

(** [{...baseTargetConfig, cache: true, inputs: [...], outputs: ...}],
    the literal of both the base target and [ciBaseTargetConfig]. *)
Definition cachedTargetConfig (namedInputs : gset string)
    (outs : list string) : TargetConfiguration :=
  {| command := command baseTargetConfig;
     executor := executor baseTargetConfig;
     options := options baseTargetConfig;
     cache := Some true;
     inputs :=
       Some (if bool_decide ("production" ∈ namedInputs)
             then ["default"; "^production"]
             else ["default"; "^default"]);
     outputs := Some outs;
     dependsOn := dependsOn baseTargetConfig;
     parallelism := parallelism baseTargetConfig;
     metadata := metadata baseTargetConfig |}.

Definition groupName : string := "Test (CI)".

(** The token that names the output subfolder of a test file. *)
Definition outputSubfolder (projectRoot testFile : string) : string :=
  Js.replaceAll (λ a, Ascii.eqb a ".") "-"
    (Js.replaceAll (λ a, Ascii.eqb a "/" || Ascii.eqb a "\") "-"
       (Path.relative (processCwd h) projectRoot testFile)).

(** What the callback of [forEachTestFile] mutates. *)
Record CiState := {
  ciTargets : gmap string TargetConfiguration;
  ciTargetGroup : list string;
  ciDependsOn : list TargetDependency;
}.

(** [relativeSpecFilePath] *)
Definition relativeSpecFilePath (projectRoot testFile : string) : string :=
  Devkit.normalizePath (Path.relative (processCwd h) projectRoot testFile).

(** The name of the target of one test file. *)
Definition perFileTargetName (ci projectRoot testFile : string) : string :=
  ci +:+ "--" +:+ relativeSpecFilePath projectRoot testFile.

(** The target of one test file. *)
Definition perFileTarget (ciBaseTargetConfig : TargetConfiguration)
    (testOutput : string) (coverageOutput : option string)
    (context : CreateNodesContext) (projectRoot testFile : string)
    : TargetConfiguration :=
  {| command :=
       Some ("./vendor/bin/phpunit" +:+ " "
             +:+ relativeSpecFilePath projectRoot testFile);
     executor := executor ciBaseTargetConfig;
     options := options ciBaseTargetConfig;
     cache := cache ciBaseTargetConfig;
     inputs := inputs ciBaseTargetConfig;
     outputs :=
       Some (getTargetOutputs testOutput coverageOutput
               (workspaceRoot context) projectRoot
               (Some (outputSubfolder projectRoot testFile)));
     dependsOn := dependsOn ciBaseTargetConfig;
     parallelism := parallelism ciBaseTargetConfig;
     metadata :=
       Some {| technologies := ["php"];
               description :=
                 "Runs PHPUnit Tests in "
                 +:+ relativeSpecFilePath projectRoot testFile +:+ " in CI";
               nonAtomizedTarget := None;
               help := phpunitHelp |} |}.

(** [{ target: targetName, projects: 'self', params: 'forward' }] *)
Definition dependencyOn (tname : string) : TargetDependency :=
  {| target := tname; projects := "self"; params := "forward" |}.

(** The callback handed to [forEachTestFile]. *)
Definition addTestFileTarget (ci : string)
    (ciBaseTargetConfig : TargetConfiguration) (testOutput : string)
    (coverageOutput : option string) (context : CreateNodesContext)
    (projectRoot : string) (st : CiState) (testFile : string) : CiState :=
  let tname := perFileTargetName ci projectRoot testFile in
  {| ciTargetGroup := ciTargetGroup st ++ [tname];
     ciTargets :=
       <[tname :=
           perFileTarget ciBaseTargetConfig testOutput coverageOutput
             context projectRoot testFile]>
         (ciTargets st);
     ciDependsOn := ciDependsOn st ++ [dependencyOn tname] |}.

(** [createMatcher('**/*Test.php')] *)
Definition createMatcher : string -> bool :=
  Minimatch.globstarStar "Test.php".

Definition forEachTestFile {S} (cb : S -> string -> S)
    (context : CreateNodesContext) (path : string) (st : S) : S :=
  let files :=
    getFilesInDirectoryUsingContext h (workspaceRoot context) path in
  fold_left (λ st file, if createMatcher file then cb st file else st)
    files st.

(** The test files [forEachTestFile] hands to its callback. *)
Definition discovered (context : CreateNodesContext) (path : string)
    : list string :=
  filter (λ f, createMatcher f = true)
    (getFilesInDirectoryUsingContext h (workspaceRoot context) path).

Definition aggregatorTarget (opts : NormalizedOptions)
    (ciBaseTargetConfig : TargetConfiguration)
    (deps : list TargetDependency) : TargetConfiguration :=
  {| command := None;
     executor := Some "nx:noop";
     options := None;
     cache := cache ciBaseTargetConfig;
     inputs := inputs ciBaseTargetConfig;
     outputs := outputs ciBaseTargetConfig;
     dependsOn := Some deps;
     parallelism := Some false;
     metadata :=
       Some {| technologies := ["php"];
               description := "Runs PHPUnit Tests in CI";
               nonAtomizedTarget := Some (targetName opts);
               help := phpunitHelp |} |}.

(** The empty object literal [{}] as a target. *)
Definition emptyTarget : TargetConfiguration :=
  {| command := None; executor := None; options := None; cache := None;
     inputs := None; outputs := None; dependsOn := None;
     parallelism := None; metadata := None |}.

(** [testDir]: the directory of the test suite joined to the project
    root, or the project root when the suite names none. *)
Definition testDirOf (projectRoot : string)
    (phpUnitConfig : PhpUnitConfiguration) : string :=
  if Js.truthyOpt (directory (testsuite phpUnitConfig))
  then Devkit.joinPathFragments
         [projectRoot; Js.nullish (directory (testsuite phpUnitConfig)) ""]
  else projectRoot.

Definition buildPhpUnitTargets (configFilePath projectRoot : string)
    (opts : NormalizedOptions) (context : CreateNodesContext)
    : result error PhpUnitTargets :=
  configFileContent <-
    readFileSync h (Path.join [workspaceRoot context; configFilePath]) ;;
  phpUnitConfig <- xmlParse h configFileContent ;;
  let namedInputs := getNamedInputs h projectRoot context in
  let testOutput := getTestOutput phpUnitConfig in
  let coverageOutput := getCoverageOutput phpUnitConfig in
  let baseOutputs :=
    getTargetOutputs testOutput coverageOutput (workspaceRoot context)
      projectRoot None in
  let targets0 : gmap string TargetConfiguration :=
    <[targetName opts := cachedTargetConfig namedInputs baseOutputs]> ∅ in
  match ciTargetName opts with
  | Some ci =>
      if Js.truthy ci then
        let ciBaseTargetConfig :=
          cachedTargetConfig namedInputs baseOutputs in
        let testDir := testDirOf projectRoot phpUnitConfig in
        let st :=
          forEachTestFile
            (addTestFileTarget ci ciBaseTargetConfig testOutput
               coverageOutput context projectRoot)
            context testDir
            {| ciTargets := targets0; ciTargetGroup := [];
               ciDependsOn := [] |} in
        (* targets[ci] ??= {} *)
        let targets1 :=
          match ciTargets st !! ci with
          | Some _ => ciTargets st
          | None => <[ci := emptyTarget]> (ciTargets st)
          end in
        let targets2 :=
          <[ci := aggregatorTarget opts ciBaseTargetConfig (ciDependsOn st)]>
            targets1 in
        Ok {| targets := targets2;
              projectMetadata :=
                Some {| targetGroups :=
                          {[ groupName := ciTargetGroup st ++ [ci] ]} |} |}
      else Ok {| targets := targets0; projectMetadata := None |}
  | None => Ok {| targets := targets0; projectMetadata := None |}
  end.

(** [createNodesInternal]; the store is passed in and handed back, as the
    function mutates the object it is given. *)
Definition createNodesInternal (configFilePath : string)
    (o : PhpUnitPluginOptions) (context : CreateNodesContext)
    (targetsCache : Store) : result error CreateNodesResult * Store :=
  let projectRoot := Path.dirname configFilePath in
  match readdirSync h (Path.join [workspaceRoot context; projectRoot]) with
  | Err e => (Err e, targetsCache)
  | Ok siblingFiles =>
      if negb (bool_decide ("composer.json" ∈ siblingFiles)) then
        (Ok {| projectsOf := None |}, targetsCache)
      else
        let normalizedOptions := normalizeOptions o in
        match
          (content <-
             readFileSync h
               (Path.join [workspaceRoot context; projectRoot;
                           "composer.json"]) ;;
           jsonParse h content)
        with
        | Err e => (Err e, targetsCache)
        | Ok composerJson =>
            let hash :=
              calculateHashForCreateNodes h projectRoot normalizedOptions
                context ["composer.json"] in
            (* targetsCache[hash] ??= await buildPhpUnitTargets(...) *)
            let filled : result error (PhpUnitTargets * Store) :=
              match targetsCache !! hash with
              | Some hit => Ok (hit, targetsCache)
              | None =>
                  built <-
                    buildPhpUnitTargets configFilePath projectRoot
                      normalizedOptions context ;;
                  Ok (built, <[hash := built]> targetsCache)
              end in
            match filled with
            | Err e => (Err e, targetsCache)
            | Ok (entry, targetsCache') =>
                match composerJson with
                | JsonNull =>
                    (Err (TypeError "Cannot read properties of null"),
                     targetsCache')
                | JsonValue nm =>
                    (Ok {| projectsOf :=
                             Some {[ projectRoot :=
                                       {| name := nm;
                                          root := projectRoot;
                                          projectTargets := targets entry;
                                          projectMeta :=
                                            projectMetadata entry |} ]} |},
                     targetsCache')
                end
            end
        end
  end.

End WithHost.

(** ** [createMatcher] on every kind of pattern *)

(** [string | RegExp | Array<string | RegExp>], arrays nested as the
    recursion of [createMatcher] allows. *)
#[local] Set Warnings "-register-all".
Inductive Pattern : Type :=
  | PatString (glob : string)
  | PatRegExp (source : string)
  | PatArray (items : list Pattern).

(** The two matching engines [createMatcher] calls: [minimatch(path,
    pattern)], which returns or throws an error with a message, and
    [pattern.test(path)] of a regular expression. *)
Record Matchers := {
  minimatch : string -> string -> result string bool;
  regExpTest : string -> string -> bool;
}.

(** [matchers.some((m) => m(path))]: the matchers are called in order until
    one returns [true]; one that throws ends the call. *)
Definition someMatcher {A} (m : A -> result string bool)
    : list A -> result string bool :=
  fix some (l : list A) : result string bool :=
    match l with
    | [] => Ok false
    | a :: l' =>
        match m a with
        | Ok true => Ok true
        | Ok false => some l'
        | Err e => Err e
        end
    end.

(** [createMatcher(pattern)(path)]; the [Err] branch carries the message of
    the error thrown. *)
Fixpoint createMatcherOf (M : Matchers) (pattern : Pattern) (path : string)
    : result string bool :=
  match pattern with
  | PatArray items => someMatcher (λ p, createMatcherOf M p path) items
  | PatRegExp source => Ok (regExpTest M source path)
  | PatString glob =>
      match minimatch M path glob with
      | Ok b => Ok b
      | Err message =>
          Err ("Error matching " +:+ path +:+ " with " +:+ glob +:+ ": "
               +:+ message)
      end
  end.

(** ** The batch entry point *)

(** The observable steps of a batch: the per-file callback being entered,
    and the store being written to disk. *)
Inductive event : Type :=
  | EvCreateNodes (configFile : string)
  | EvWriteJson (cachePath : string) (results : Store).

(** A file of the workspace data directory as [readJsonFile] finds it: the
    JSON of a store, or content on which it throws. *)
Inductive DataFile : Type :=
  | JsonFile (s : Store)
  | BrokenFile (message : string).

(** The part of the world a batch changes: the files of the workspace data
    directory and the trace of what was done. *)
Record World := {
  disk : gmap string DataFile;
  trace : list event;
}.

(** [AggregateCreateNodesError]: the errors, and the results of the files
    that went through. *)
Record AggregateCreateNodesError := {
  errors : list (string * error);
  partialResults : list (string * CreateNodesResult);
}.

(** What a batch throws: the error of reading the store, raised before the
    [try] is entered, or the aggregate error of [createNodesFromFiles]. *)
Inductive BatchError : Type :=
  | StoreReadError (e : error)
  | FilesError (e : AggregateCreateNodesError).

(** What [createNodesFromFiles] accumulates while it visits the files. *)
Record Collected := {
  store : Store;
  results : list (string * CreateNodesResult);
  failures : list (string * error);
  steps : list event;
}.

Section Batch.

Variable h : Host.

(** [existsSync(cachePath) ? readJsonFile(cachePath) : {}]: a missing file
    is the empty store, a file that does not hold JSON makes the read
    throw. *)
Definition readTargetsCache (cachePath : string) (w : World)
    : result error Store :=
  match disk w !! cachePath with
  | Some (JsonFile s) => Ok s
  | Some (BrokenFile message) => Err (JsonError message)
  | None => Ok ∅
  end.

Definition writeTargetsToCache (cachePath : string) (results : Store)
    (w : World) : World :=
  {| disk := <[cachePath := JsonFile results]> (disk w);
     trace := trace w ++ [EvWriteJson cachePath results] |}.

(** One turn of the loop of [createNodesFromFiles]: the callback runs
    inside a [try], its value or its error is recorded. *)
Definition visitFile
    (createNodes : string -> Store -> result error CreateNodesResult * Store)
    (acc : Collected) (file : string) : Collected :=
  match createNodes file (store acc) with
  | (Ok value, s) =>
      {| store := s;
         results := results acc ++ [(file, value)];
         failures := failures acc;
         steps := steps acc ++ [EvCreateNodes file] |}
  | (Err e, s) =>
      {| store := s;
         results := results acc;
         failures := failures acc ++ [(file, e)];
         steps := steps acc ++ [EvCreateNodes file] |}
  end.

(** [createNodesFromFiles] of [@nx/devkit]: the callback is entered for
    the files in the order of the list. The results are gathered here in
    that order too; the library gathers them as the calls complete. *)
Definition createNodesFromFiles
    (createNodes : string -> Store -> result error CreateNodesResult * Store)
    (configFiles : list string) (s : Store) : Collected :=
  fold_left (visitFile createNodes) configFiles
    {| store := s; results := []; failures := []; steps := [] |}.

Definition outcome (c : Collected)
    : result BatchError (list (string * CreateNodesResult)) :=
  match failures c with
  | [] => Ok (results c)
  | _ :: _ =>
      Err (FilesError {| errors := failures c; partialResults := results c |})
  end.

Definition emptyOptions : PhpUnitPluginOptions :=
  {| opt_targetName := None; opt_ciTargetName := None |}.

Definition cachePathOf (o : option PhpUnitPluginOptions) : string :=
  let optionsHash := hashObject h (Js.nullish o emptyOptions) in
  Path.join [workspaceDataDirectory h;
             "phpUnit-" +:+ optionsHash +:+ ".hash"].

(** The callback of [createNodesV2]: the store is read before the [try],
    so that a read that throws ends the batch there; otherwise the files
    are visited inside [try] and the store is written in [finally]. *)
Definition createNodesV2 (configFilePaths : list string)
    (o : option PhpUnitPluginOptions) (context : CreateNodesContext)
    (w : World)
    : result BatchError (list (string * CreateNodesResult)) * World :=
  let cachePath := cachePathOf o in
  match readTargetsCache cachePath w with
  | Err e => (Err (StoreReadError e), w)
  | Ok targetsCache =>
      let c :=
        createNodesFromFiles
          (λ configFile,
             createNodesInternal h configFile (Js.nullish o emptyOptions)
               context)
          configFilePaths targetsCache in
      let w' := {| disk := disk w; trace := trace w ++ steps c |} in
      (outcome c, writeTargetsToCache cachePath (store c) w')
  end.

End Batch.

(** ** A small workspace to run the plugin on *)

Module Demo.

(** A workspace at [/ws] with one project, [proj], whose configuration
    parses to [cfg] and whose files are [files], and one directory,
    [fixture], that holds a configuration but no manifest. *)
Definition host (cfg : PhpUnitConfiguration) (files : list string) : Host :=
  {| processCwd := "/ws";
     readdirSync := λ d,
       if String.eqb d "/ws/proj"
       then Ok ["composer.json"; "phpunit.xml"; "tests"]
       else if String.eqb d "/ws/fixture" then Ok ["phpunit.xml"]
       else Err (FsError d);
     readFileSync := λ f,
       if String.eqb f "/ws/proj/phpunit.xml" then Ok "<phpunit/>"
       else if String.eqb f "/ws/proj/composer.json"
       then Ok "{ name: acme/proj }"
       else Err (FsError f);
     xmlParse := λ s,
       if String.eqb s "<phpunit/>" then Ok cfg else Err (XmlError s);
     jsonParse := λ s,
       if String.eqb s "{ name: acme/proj }"
       then Ok (JsonValue (Some "acme/proj"))
       else Err (JsonError s);
     getNamedInputs := λ _ _, ∅;
     calculateHashForCreateNodes := λ projectRoot o _ _,
       projectRoot +:+ "#" +:+ targetName o +:+ "#"
       +:+ Js.nullish (ciTargetName o) "";
     getFilesInDirectoryUsingContext := λ _ d,
       filter (λ f, Js.startsWith f (d +:+ "/") = true) files;
     hashObject := λ o,
       Js.nullish (opt_targetName o) "~" +:+ "#"
       +:+ Js.nullish (opt_ciTargetName o) "~";
     workspaceDataDirectory := "/ws/.nx/workspace-data" |}.

Definition context : CreateNodesContext := {| workspaceRoot := "/ws" |}.

Definition suite (d : option string) : PhpUnitTestSuite :=
  {| suiteName := "unit"; directory := d |}.

Definition plainConfig : PhpUnitConfiguration :=
  {| cacheResultFile := None;
     testsuite := suite (Some "tests");
     coverage := None |}.

Definition coverageConfig : PhpUnitConfiguration :=
  {| cacheResultFile := None;
     testsuite := suite (Some "tests");
     coverage := Some {| cacheDirectory := Some "coverage" |} |}.

Definition defaultOptions : NormalizedOptions :=
  {| targetName := "test"; ciTargetName := Some "test-ci" |}.

Definition testFiles : list string :=
  ["proj/composer.json"; "proj/tests/FooTest.php"; "proj/tests/helper.php";
   "proj/tests/sub/BarTest.php"].

(** The same workspace with a parser that refuses every configuration. *)
Definition unparsable (files : list string) : Host :=
  {| processCwd := processCwd (host plainConfig files);
     readdirSync := readdirSync (host plainConfig files);
     readFileSync := readFileSync (host plainConfig files);
     xmlParse := λ s, Err (XmlError s);
     jsonParse := jsonParse (host plainConfig files);
     getNamedInputs := getNamedInputs (host plainConfig files);
     calculateHashForCreateNodes :=
       calculateHashForCreateNodes (host plainConfig files);
     getFilesInDirectoryUsingContext :=
       getFilesInDirectoryUsingContext (host plainConfig files);
     hashObject := hashObject (host plainConfig files);
     workspaceDataDirectory :=
       workspaceDataDirectory (host plainConfig files) |}.

(** A configuration file whose root element names a result cache file of
    its own. *)
Definition customCacheXml : string :=
  "<phpunit cacheResultFile='custom/out.cache'>"
  +:+ "<testsuites><testsuite name='unit'>"
  +:+ "<directory>tests</directory></testsuite></testsuites></phpunit>".

Definition customCacheDocument : PhpUnitDocument :=
  {| rootCacheResultFile := Some "custom/out.cache";
     coverageCacheDirectory := None;
     documentSuite := suite (Some "tests") |}.

(** A configuration file that declares a coverage directory. *)
Definition coverageXml : string :=
  "<phpunit><testsuites><testsuite name='unit'>"
  +:+ "<directory>tests</directory></testsuite></testsuites>"
  +:+ "<coverage cacheDirectory='coverage'/></phpunit>".

Definition coverageDocument : PhpUnitDocument :=
  {| rootCacheResultFile := None;
     coverageCacheDirectory := Some "coverage";
     documentSuite := suite (Some "tests") |}.

(** The same workspace with the text [content] in [proj/phpunit.xml], a
    text the parser reads as the document [doc]. *)
Definition documentHost (content : string) (doc : PhpUnitDocument)
    (files : list string) : Host :=
  {| processCwd := processCwd (host plainConfig files);
     readdirSync := readdirSync (host plainConfig files);
     readFileSync := λ f,
       if String.eqb f "/ws/proj/phpunit.xml" then Ok content
       else readFileSync (host plainConfig files) f;
     xmlParse := λ s,
       if String.eqb s content then Ok (parsePhpUnitDocument doc)
       else Err (XmlError s);
     jsonParse := jsonParse (host plainConfig files);
     getNamedInputs := getNamedInputs (host plainConfig files);
     calculateHashForCreateNodes :=
       calculateHashForCreateNodes (host plainConfig files);
     getFilesInDirectoryUsingContext :=
       getFilesInDirectoryUsingContext (host plainConfig files);
     hashObject := hashObject (host plainConfig files);
     workspaceDataDirectory :=
       workspaceDataDirectory (host plainConfig files) |}.

(** Engines for [createMatcher]: the glob of the test files, a glob that
    is refused, and regular expressions that match a prefix. *)
Definition matchers : Matchers :=
  {| minimatch := λ path glob,
       if String.eqb glob "**/*Test.php"
       then Ok (Minimatch.globstarStar "Test.php" path)
       else Err "invalid pattern";
     regExpTest := λ source path, Js.startsWith path source |}.

(** An entry left in the store by an earlier run. *)
Definition earlierEntry : PhpUnitTargets :=
  {| targets := {[ "test" := cachedTargetConfig ∅ ["{projectRoot}/old"] ]};
     projectMetadata := None |}.

End Demo.

(** ** Vocabulary of the properties *)

(** The characters the subfolder token cannot tell apart: the three that
    are rewritten, and the hyphen they are rewritten to. *)
Definition isTokenSeparator (a : ascii) : bool :=
  Ascii.eqb a "/" || Ascii.eqb a "\" || Ascii.eqb a "." || Ascii.eqb a "-".

(** Two paths of the same length that, position by position, hold the same
    character or two token separators. *)
Fixpoint agreeUpToSeparators (p q : string) : bool :=
  match p, q with
  | EmptyString, EmptyString => true
  | String a p', String b q' =>
      (Ascii.eqb a b || (isTokenSeparator a && isTokenSeparator b))
      && agreeUpToSeparators p' q'
  | _, _ => false
  end.

(** What the two replacements do to one character. *)
Definition tokenChar (a : ascii) : ascii :=
  let a' := if Ascii.eqb a "/" || Ascii.eqb a "\" then "-"%char else a in
  if Ascii.eqb a' "." then "-"%char else a'.

(** A path segment that [normalizeString] keeps as it is: not empty, not
    [.], not [..], and free of separators. *)
Definition plainSegment (s : string) : bool :=
  negb (String.eqb s "") && negb (String.eqb s ".")
  && negb (String.eqb s "..") && negb (Js.includesChar "/" s).

(** A plain segment that [normalizePath] keeps as it is too. *)
Definition portableSegment (s : string) : bool :=
  plainSegment s && negb (Js.includesChar "\" s).

(** The segments of a relative path that stays below the directory it is
    resolved against and is not mistaken for one that leaves it: portable
    segments, the first of which neither starts with two dots nor looks
    like a drive letter. *)
Definition insideSegments (segs : list string) : bool :=
  match segs with
  | [] => false
  | s :: _ =>
      forallb portableSegment segs
      && negb (Js.startsWith s "..") && negb (Devkit.hasDriveLetter s)
  end.

(** The outputs of a generated target, as the properties speak of them. *)
Definition outputsOf (tc : TargetConfiguration) : list string :=
  Js.nullish (outputs tc) [].

(** The key under which [createNodesInternal] memoizes a configuration
    file. *)
Definition hashKey (h : Host) (o : PhpUnitPluginOptions)
    (context : CreateNodesContext) (configFilePath : string) : string :=
  calculateHashForCreateNodes h (Path.dirname configFilePath)
    (normalizeOptions o) context ["composer.json"].

(** [createNodesInternal] without the store: the targets are recomputed
    with [buildPhpUnitTargets] on every call. *)
Definition recomputeNodes (h : Host) (configFilePath : string)
    (o : PhpUnitPluginOptions) (context : CreateNodesContext)
    : result error CreateNodesResult :=
  let projectRoot := Path.dirname configFilePath in
  siblingFiles <-
    readdirSync h (Path.join [workspaceRoot context; projectRoot]) ;;
  if negb (bool_decide ("composer.json" ∈ siblingFiles)) then
    Ok {| projectsOf := None |}
  else
    content <-
      readFileSync h
        (Path.join [workspaceRoot context; projectRoot; "composer.json"]) ;;
    composerJson <- jsonParse h content ;;
    built <-
      buildPhpUnitTargets h configFilePath projectRoot (normalizeOptions o)
        context ;;
    match composerJson with
    | JsonNull => Err (TypeError "Cannot read properties of null")
    | JsonValue nm =>
        Ok {| projectsOf :=
                Some {[ projectRoot :=
                          {| name := nm;
                             root := projectRoot;
                             projectTargets := targets built;
                             projectMeta := projectMetadata built |} ]} |}
    end.

(** A batch without the store. *)
Definition recomputeAll (h : Host) (configFilePaths : list string)
    (o : option PhpUnitPluginOptions) (context : CreateNodesContext)
    : result BatchError (list (string * CreateNodesResult)) :=
  outcome
    (createNodesFromFiles
       (λ configFile s,
          (recomputeNodes h configFile (Js.nullish o emptyOptions) context, s))
       configFilePaths ∅).

(** The hash gives the configuration files of a batch keys of their own. *)
Definition hashSeparates (h : Host) (o : PhpUnitPluginOptions)
    (context : CreateNodesContext) (files : list string) : Prop :=
  ∀ f g, f ∈ files → g ∈ files →
         hashKey h o context f = hashKey h o context g → f = g.

(** Every entry the store holds for a file of the batch is what the
    builder computes for that file. *)
Definition storeSound (h : Host) (o : PhpUnitPluginOptions)
    (context : CreateNodesContext) (files : list string) (s : Store) : Prop :=
  ∀ f built, f ∈ files → s !! hashKey h o context f = Some built →
             buildPhpUnitTargets h f (Path.dirname f) (normalizeOptions o)
               context
             = Ok built.

(** The world with the store file of these options removed. *)
Definition clearStore (h : Host) (o : option PhpUnitPluginOptions)
    (w : World) : World :=
  {| disk := delete (cachePathOf h o) (disk w); trace := trace w |}.

(** The absolute path made of the given segments. *)
Definition rooted (segs : list string) : string :=
  "/" +:+ Js.join "/" segs.

(** The results a batch hands back: its value, or the partial results its
    aggregate error carries; none when the store could not be read. *)
Definition returned
    (out : result BatchError (list (string * CreateNodesResult)))
    : list (string * CreateNodesResult) :=
  match out with
  | Ok l => l
  | Err (FilesError e) => partialResults e
  | Err (StoreReadError _) => []
  end.

(** The project [createNodesInternal] returns for a configuration file,
    given the name of the manifest and the entry of the store. *)
Definition projectOf (configFilePath : string) (nm : option string)
    (entry : PhpUnitTargets) : ProjectConfiguration :=
  {| name := nm;
     root := Path.dirname configFilePath;
     projectTargets := targets entry;
     projectMeta := projectMetadata entry |}.

(** How many times a trace writes the store to disk. *)
Fixpoint writesIn (t : list event) : nat :=
  match t with
  | [] => 0
  | EvWriteJson _ _ :: t' => S (writesIn t')
  | EvCreateNodes _ :: t' => writesIn t'
  end.

(** * Properties *)

(** ** Splitting and joining *)

Section SplitJoin.

Variable c : ascii.

Lemma split_not_nil (s : string) : Js.split c s ≠ [].
Proof.
  destruct s as [|a s]; simpl; [discriminate|].
  destruct (Ascii.eqb a c); [discriminate|].
  destruct (Js.split c s); discriminate.
Qed.

Lemma split_app_sep (a b : string) :
  Js.split c (a +:+ String c b) = Js.split c a ++ Js.split c b.
Proof.
  induction a as [|x a IH]; simpl.
  - rewrite Ascii.eqb_refl. reflexivity.
  - rewrite IH. destruct (Ascii.eqb x c); [reflexivity|].
    destruct (Js.split c a) as [|hd tl] eqn:Hsplit; [|reflexivity].
    exfalso. exact (split_not_nil a Hsplit).
Qed.

Lemma split_none (s : string) :
  Js.includesChar c s = false → Js.split c s = [s].
Proof.
  induction s as [|a s IH]; simpl; [reflexivity|].
  intros Hno. apply orb_false_iff in Hno as [Ha Hs].
  rewrite Ha, (IH Hs). reflexivity.
Qed.

Lemma join_cons (x y : string) (l : list string) :
  Js.join (String c "") (x :: y :: l)
  = x +:+ String c (Js.join (String c "") (y :: l)).
Proof. reflexivity. Qed.

Lemma split_join (segs : list string) :
  segs ≠ [] →
  Forall (λ s, Js.includesChar c s = false) segs →
  Js.split c (Js.join (String c "") segs) = segs.
Proof.
  induction segs as [|x segs IH]; [contradiction|]. intros _ Hall.
  apply Forall_cons in Hall as [Hx Hrest].
  destruct segs as [|y segs].
  - apply split_none. exact Hx.
  - rewrite join_cons, split_app_sep, (split_none x Hx).
    rewrite IH; [reflexivity|discriminate|exact Hrest].
Qed.

Lemma split_parts (s : string) :
  Forall (λ p, Js.includesChar c p = false) (Js.split c s).
Proof.
  induction s as [|a s IH]; simpl.
  - repeat constructor.
  - destruct (Ascii.eqb a c) eqn:Ha; [constructor; [reflexivity|exact IH]|].
    destruct (Js.split c s) as [|hd tl]; [repeat constructor; simpl|].
    + rewrite Ha. reflexivity.
    + apply Forall_cons in IH as [Hhd Htl].
      constructor; [simpl; rewrite Ha, Hhd; reflexivity|exact Htl].
Qed.

Lemma includesChar_app (a b : string) :
  Js.includesChar c (a +:+ b)
  = Js.includesChar c a || Js.includesChar c b.
Proof.
  induction a as [|x a IH]; simpl; [reflexivity|].
  rewrite IH, orb_assoc. reflexivity.
Qed.

End SplitJoin.

(** ** Normalizing and resolving paths *)

Lemma plainSegment_inv (s : string) :
  plainSegment s = true →
  String.eqb s "" = false ∧ String.eqb s "." = false
  ∧ String.eqb s ".." = false ∧ Js.includesChar "/" s = false.
Proof.
  unfold plainSegment. rewrite !andb_true_iff, !negb_true_iff. tauto.
Qed.

Lemma normalizeStep_plain (b : bool) (acc : list string) (s : string) :
  plainSegment s = true → Path.normalizeStep b acc s = s :: acc.
Proof.
  intros Hs. apply plainSegment_inv in Hs as (H1 & H2 & H3 & _).
  unfold Path.normalizeStep. rewrite H1, H2, H3. reflexivity.
Qed.

Lemma fold_normalizeStep_plain (b : bool) (l acc : list string) :
  Forall (λ s, s = "" ∨ plainSegment s = true) l →
  fold_left (Path.normalizeStep b) l acc
  = rev (filter (λ s, s ≠ "") l) ++ acc.
Proof.
  intros Hall. revert acc.
  induction Hall as [|s l [->|Hs] _ IH]; intros acc; simpl.
  - reflexivity.
  - rewrite IH. rewrite filter_cons_False by (intros Hne; apply Hne; reflexivity).
    reflexivity.
  - rewrite (normalizeStep_plain b acc s Hs), IH.
    rewrite filter_cons_True.
    + simpl. rewrite <- app_assoc. reflexivity.
    + intros ->. discriminate Hs.
Qed.

Lemma normalizeSegments_plain_or_empty (b : bool) (l : list string) :
  Forall (λ s, s = "" ∨ plainSegment s = true) l →
  Path.normalizeSegments b l = filter (λ s, s ≠ "") l.
Proof.
  intros Hall. unfold Path.normalizeSegments.
  rewrite (fold_normalizeStep_plain b l [] Hall), app_nil_r.
  apply rev_involutive.
Qed.

Lemma filter_plain (l : list string) :
  Forall (λ s, plainSegment s = true) l →
  filter (λ s, s ≠ "") l = l.
Proof.
  induction 1 as [|s l Hs _ IH]; [reflexivity|].
  rewrite filter_cons_True, IH; [reflexivity|].
  intros ->. discriminate Hs.
Qed.

Lemma plain_no_slash (l : list string) :
  Forall (λ s, plainSegment s = true) l →
  Forall (λ s, Js.includesChar "/" s = false) l.
Proof.
  intros Hall. eapply Forall_impl; [exact Hall|].
  intros s Hs. apply plainSegment_inv in Hs. tauto.
Qed.

(** Splitting the join of plain segments gives them back, but for the
    empty string that stands for no segment at all. *)
Lemma split_join_plain (segs : list string) :
  Forall (λ s, plainSegment s = true) segs →
  Forall (λ s, s = "" ∨ plainSegment s = true)
    (Js.split "/" (Js.join "/" segs))
  ∧ filter (λ s, s ≠ "") (Js.split "/" (Js.join "/" segs)) = segs.
Proof.
  intros Hall. destruct segs as [|x segs].
  - split; [repeat constructor|reflexivity].
  - rewrite (split_join "/" (x :: segs)); [|discriminate|].
    + split; [|apply filter_plain; exact Hall].
      eapply Forall_impl; [exact Hall|]. intros s Hs. right. exact Hs.
    + apply plain_no_slash. exact Hall.
Qed.

Lemma split_rooted (segs : list string) :
  Js.split "/" (rooted segs) = "" :: Js.split "/" (Js.join "/" segs).
Proof. reflexivity. Qed.

Lemma segments_rooted (segs : list string) :
  Forall (λ s, plainSegment s = true) segs →
  Path.segments (rooted segs) = segs.
Proof.
  intros Hall. unfold Path.segments. rewrite split_rooted.
  rewrite filter_cons_False by (intros Hne; apply Hne; reflexivity).
  apply split_join_plain. exact Hall.
Qed.

(** With the separators of [normalizeString] only, every segment kept is
    plain. *)
Lemma fold_normalizeStep_keeps_plain (l acc : list string) :
  Forall (λ s, Js.includesChar "/" s = false) l →
  Forall (λ s, plainSegment s = true) acc →
  Forall (λ s, plainSegment s = true)
    (fold_left (Path.normalizeStep false) l acc).
Proof.
  intros Hl. revert acc.
  induction Hl as [|s l Hs _ IH]; intros acc Hacc; [exact Hacc|].
  simpl. apply IH. unfold Path.normalizeStep.
  destruct (String.eqb s "") eqn:H1; [exact Hacc|].
  destruct (String.eqb s ".") eqn:H2; [exact Hacc|].
  destruct (String.eqb s "..") eqn:H3; simpl.
  - destruct acc as [|top rest]; [constructor|].
    destruct (String.eqb top ".."); [exact Hacc|].
    apply Forall_cons in Hacc as [_ Hrest]. exact Hrest.
  - constructor; [|exact Hacc].
    unfold plainSegment. rewrite H1, H2, H3, Hs. reflexivity.
Qed.

Lemma normalizeSegments_false_plain (x : string) :
  Forall (λ s, plainSegment s = true)
    (Path.normalizeSegments false (Js.split "/" x)).
Proof.
  unfold Path.normalizeSegments.
  apply List.Forall_rev, fold_normalizeStep_keeps_plain;
    [apply split_parts|constructor].
Qed.

Lemma resolveFrom_reaches_cwd (cwd : string) (l : list string)
    (acc : string) :
  Path.isAbsolute cwd = true →
  ∃ x, Path.resolveFrom (l ++ [cwd]) acc = (x, true).
Proof.
  intros Habs. revert acc. induction l as [|p l IH]; intros acc; simpl.
  - destruct cwd as [|a cwd]; [discriminate|]. simpl in *.
    rewrite Habs. eauto.
  - destruct (String.eqb p ""); [apply IH|].
    destruct (Path.isAbsolute p); [eauto|apply IH].
Qed.

(** With an absolute working directory, [path.resolve] returns a slash
    followed by plain segments. *)
Lemma resolve_rooted (cwd : string) (args : list string) :
  Path.isAbsolute cwd = true →
  ∃ segs, Forall (λ s, plainSegment s = true) segs
          ∧ Path.resolve cwd args = rooted segs.
Proof.
  intros Habs. unfold Path.resolve.
  destruct (resolveFrom_reaches_cwd cwd (rev args) "" Habs) as [x ->].
  exists (Path.normalizeSegments false (Js.split "/" x)).
  split; [apply normalizeSegments_false_plain|reflexivity].
Qed.

Lemma join_plain_head (segs : list string) :
  segs ≠ [] →
  Forall (λ s, plainSegment s = true) segs →
  ∃ a rest, Js.join "/" segs = String a rest ∧ Path.isSlash a = false.
Proof.
  destruct segs as [|x segs]; [contradiction|]. intros _ Hall.
  apply Forall_cons in Hall as [Hx _].
  apply plainSegment_inv in Hx as (Hne & _ & _ & Hslash).
  destruct x as [|a x]; [discriminate|].
  simpl in Hslash. apply orb_false_iff in Hslash as [Ha _].
  destruct segs as [|y segs].
  - exists a, x. split; [reflexivity|exact Ha].
  - exists a, (x +:+ String "/" (Js.join "/" (y :: segs))).
    split; [reflexivity|exact Ha].
Qed.

Lemma normalizeSegments_rooted_trail (b : bool) (segs extra : list string) :
  Forall (λ s, plainSegment s = true) segs →
  Forall (λ s, s = "" ∨ plainSegment s = true) extra →
  Path.normalizeSegments b (Js.split "/" (rooted segs) ++ extra)
  = segs ++ filter (λ s, s ≠ "") extra.
Proof.
  intros Hsegs Hextra.
  destruct (split_join_plain segs Hsegs) as [Hsplit Hfilter].
  rewrite normalizeSegments_plain_or_empty.
  - rewrite filter_app, split_rooted.
    rewrite filter_cons_False by (intros Hne; apply Hne; reflexivity).
    rewrite Hfilter. reflexivity.
  - apply Forall_app. split; [|exact Hextra].
    rewrite split_rooted. constructor; [left; reflexivity|exact Hsplit].
Qed.

Lemma resolve_rooted_id (cwd : string) (segs : list string) :
  Forall (λ s, plainSegment s = true) segs →
  Path.resolve cwd [rooted segs] = rooted segs.
Proof.
  intros Hsegs. unfold Path.resolve. simpl.
  unfold Path.normalizeString.
  change (rooted segs +:+ "/" +:+ "") with (rooted segs +:+ String "/" "").
  rewrite split_app_sep. change (Js.split "/" "") with [""].
  rewrite (normalizeSegments_rooted_trail false segs [""] Hsegs).
  - rewrite filter_cons_False by (intros Hne; apply Hne; reflexivity).
    rewrite filter_nil, app_nil_r. reflexivity.
  - repeat constructor.
Qed.

Lemma resolve_rooted_append (cwd : string) (segs rel : list string) :
  Forall (λ s, plainSegment s = true) segs →
  rel ≠ [] →
  Forall (λ s, plainSegment s = true) rel →
  Path.resolve cwd [rooted segs; Js.join "/" rel] = rooted (segs ++ rel).
Proof.
  intros Hsegs Hne Hrel.
  destruct (join_plain_head rel Hne Hrel) as (a & rest & Hjoin & Ha).
  unfold Path.resolve. simpl. rewrite Hjoin. simpl. rewrite Ha. simpl.
  rewrite <- Hjoin. unfold Path.normalizeString.
  change (rooted segs +:+ "/" +:+ Js.join "/" rel +:+ "/" +:+ "")
    with (rooted segs +:+ String "/" (Js.join "/" rel +:+ String "/" "")).
  rewrite !split_app_sep. change (Js.split "/" "") with [""].
  rewrite (split_join "/" rel Hne (plain_no_slash rel Hrel)).
  rewrite (normalizeSegments_rooted_trail false segs (rel ++ [""]) Hsegs).
  - rewrite filter_app, (filter_plain rel Hrel).
    rewrite filter_cons_False by (intros Hx; apply Hx; reflexivity).
    rewrite filter_nil, app_nil_r. reflexivity.
  - apply Forall_app. split; [|repeat constructor].
    eapply Forall_impl; [exact Hrel|]. intros s Hs. right. exact Hs.
Qed.

Lemma stripCommon_prefix (segs rel : list string) :
  Path.stripCommon segs (segs ++ rel) = ([], rel).
Proof.
  induction segs as [|x segs IH]; simpl; [reflexivity|].
  rewrite String.eqb_refl. exact IH.
Qed.

(** The relative path from a directory to a path below it. *)
Lemma relative_rooted_append (cwd : string) (segs rel : list string) :
  Forall (λ s, plainSegment s = true) segs →
  rel ≠ [] →
  Forall (λ s, plainSegment s = true) rel →
  Path.relative cwd (rooted segs) (rooted (segs ++ rel)) = Js.join "/" rel.
Proof.
  intros Hsegs Hne Hrel.
  assert (Hall : Forall (λ s, plainSegment s = true) (segs ++ rel))
    by (apply Forall_app; split; assumption).
  assert (Hdiff : rooted segs ≠ rooted (segs ++ rel)).
  { intros Heq. apply (f_equal Path.segments) in Heq.
    rewrite (segments_rooted _ Hsegs), (segments_rooted _ Hall) in Heq.
    apply (f_equal length) in Heq. rewrite length_app in Heq.
    destruct rel; [contradiction|]. simpl in Heq. lia. }
  unfold Path.relative.
  destruct (String.eqb_spec (rooted segs) (rooted (segs ++ rel)));
    [contradiction|].
  rewrite (resolve_rooted_id cwd _ Hsegs), (resolve_rooted_id cwd _ Hall).
  destruct (String.eqb_spec (rooted segs) (rooted (segs ++ rel)));
    [contradiction|].
  rewrite (segments_rooted _ Hsegs), (segments_rooted _ Hall).
  rewrite stripCommon_prefix. reflexivity.
Qed.

(** ** Paths that [normalizePath] and [path.join] leave alone *)

Lemma join_no_backslash (segs : list string) :
  Forall (λ s, Js.includesChar "\" s = false) segs →
  Js.includesChar "\" (Js.join "/" segs) = false.
Proof.
  induction 1 as [|x segs Hx Hrest IH]; [reflexivity|].
  destruct segs as [|y segs]; [exact Hx|].
  rewrite join_cons, includesChar_app, Hx. simpl. exact IH.
Qed.

Lemma normalizePath_id (p : string) :
  Devkit.hasDriveLetter p = false →
  Js.includesChar "\" p = false →
  Devkit.normalizePath p = p.
Proof.
  intros Hdrive Hback. unfold Devkit.normalizePath.
  assert (Hsame : Devkit.removeWindowsDriveLetter p = p).
  { destruct p as [|a [|b p]]; try reflexivity.
    simpl in *. rewrite Hdrive. reflexivity. }
  rewrite Hsame, (split_none "\" p Hback). reflexivity.
Qed.

Lemma hasDriveLetter_join (s : string) (segs : list string) :
  Devkit.hasDriveLetter s = false →
  Devkit.hasDriveLetter (Js.join "/" (s :: segs)) = false.
Proof.
  intros Hs. destruct segs as [|y segs]; [exact Hs|].
  rewrite join_cons. generalize (Js.join "/" (y :: segs)). intros rest.
  destruct s as [|a [|b s]]; simpl.
  - destruct rest; reflexivity.
  - apply andb_false_r.
  - exact Hs.
Qed.

Lemma startsWith_dotdot_join (s : string) (segs : list string) :
  plainSegment s = true →
  Js.startsWith s ".." = false →
  Js.startsWith (Js.join "/" (s :: segs)) ".." = false.
Proof.
  intros Hplain Hs. destruct segs as [|y segs]; [exact Hs|].
  rewrite join_cons. apply plainSegment_inv in Hplain as (Hne & Hdot & _ & _).
  generalize (Js.join "/" (y :: segs)). intros rest.
  destruct s as [|a [|b s]]; simpl in *.
  - discriminate Hne.
  - destruct (Ascii.eqb_spec a ".") as [->|_]; [discriminate Hdot|reflexivity].
  - exact Hs.
Qed.

Lemma lastChar_app (a b : string) :
  b ≠ "" → Path.lastChar (a +:+ b) = Path.lastChar b.
Proof.
  intros Hb. induction a as [|x a IH]; [reflexivity|].
  simpl. destruct (a +:+ b) as [|y rest] eqn:Happ; [|exact IH].
  destruct a; [simpl in Happ; contradiction|discriminate].
Qed.

Lemma hasTrailingSlash_none (s : string) :
  Js.includesChar "/" s = false → Path.hasTrailingSlash s = false.
Proof.
  unfold Path.hasTrailingSlash.
  induction s as [|x s IH]; [reflexivity|]. simpl.
  intros Hno. apply orb_false_iff in Hno as [Hx Hs].
  destruct s as [|y s]; [exact Hx|]. apply IH. exact Hs.
Qed.

Lemma hasTrailingSlash_join (segs : list string) :
  segs ≠ [] →
  Forall (λ s, plainSegment s = true) segs →
  Path.hasTrailingSlash (Js.join "/" segs) = false.
Proof.
  induction segs as [|x segs IH]; [contradiction|]. intros _ Hall.
  apply Forall_cons in Hall as [Hx Hrest].
  destruct segs as [|y segs].
  - apply hasTrailingSlash_none. apply plainSegment_inv in Hx. tauto.
  - assert (Hne : y :: segs ≠ []) by discriminate.
    destruct (join_plain_head (y :: segs) Hne Hrest) as (a & rest & Hj & _).
    rewrite join_cons. unfold Path.hasTrailingSlash.
    rewrite lastChar_app by discriminate.
    specialize (IH Hne Hrest). unfold Path.hasTrailingSlash in IH.
    rewrite Hj in *. exact IH.
Qed.

(** [path.normalize] leaves a relative path of plain segments as it is. *)
Lemma normalize_plain (segs : list string) :
  segs ≠ [] →
  Forall (λ s, plainSegment s = true) segs →
  Path.normalize (Js.join "/" segs) = Js.join "/" segs.
Proof.
  intros Hne Hall.
  destruct (join_plain_head segs Hne Hall) as (a & rest & Hj & Ha).
  assert (Hnorm : Path.normalizeString (Js.join "/" segs) true
                  = Js.join "/" segs).
  { unfold Path.normalizeString.
    rewrite (split_join "/" segs Hne (plain_no_slash segs Hall)).
    rewrite normalizeSegments_plain_or_empty, (filter_plain segs Hall);
      [reflexivity|].
    eapply Forall_impl; [exact Hall|]. intros s Hs. right. exact Hs. }
  unfold Path.normalize.
  rewrite (hasTrailingSlash_join segs Hne Hall).
  assert (Habs : Path.isAbsolute (Js.join "/" segs) = false)
    by (rewrite Hj; exact Ha).
  rewrite Habs. simpl negb. rewrite Hnorm, Hj. reflexivity.
Qed.

(** [path.join] of arguments that are plain segments puts a slash between
    them. *)
Lemma join_plain (segs : list string) :
  segs ≠ [] →
  Forall (λ s, plainSegment s = true) segs →
  Path.join segs = Js.join "/" segs.
Proof.
  intros Hne Hall. unfold Path.join.
  rewrite (filter_plain segs Hall).
  destruct segs as [|x segs]; [contradiction|].
  apply normalize_plain; assumption.
Qed.

Lemma portable_plain (segs : list string) :
  forallb portableSegment segs = true →
  Forall (λ s, plainSegment s = true) segs
  ∧ Forall (λ s, Js.includesChar "\" s = false) segs.
Proof.
  rewrite forallb_forall. intros Hall. split; apply List.Forall_forall;
    intros s Hin; specialize (Hall s Hin); unfold portableSegment in Hall;
    apply andb_true_iff in Hall as [Hp Hb];
    [exact Hp|apply negb_true_iff; exact Hb].
Qed.

Section NormalizeOutput.

Variable h : Host.
Hypothesis cwdAbsolute : Path.isAbsolute (processCwd h) = true.

(** A relative path of portable segments that does not start with two
    dots is normalized to the project token followed by that path. *)
Lemma normalizeOutput_inside (rel : list string)
    (workspaceRoot projectRoot : string) :
  insideSegments rel = true →
  normalizeOutput h (Js.join "/" rel) workspaceRoot projectRoot
  = "{projectRoot}/" +:+ Js.join "/" rel.
Proof.
  intros Hin. destruct rel as [|s rel]; [discriminate|].
  unfold insideSegments in Hin.
  apply andb_true_iff in Hin as [Hin Hdrive].
  apply andb_true_iff in Hin as [Hport Hdots].
  apply negb_true_iff in Hdrive, Hdots.
  destruct (portable_plain _ Hport) as [Hplain Hback].
  assert (Hne : s :: rel ≠ []) by discriminate.
  assert (Hs : plainSegment s = true)
    by (apply Forall_cons in Hplain as [Hs _]; exact Hs).
  unfold normalizeOutput.
  destruct (resolve_rooted (processCwd h) [workspaceRoot; projectRoot]
              cwdAbsolute) as (segs & Hsegs & ->).
  rewrite (resolve_rooted_append _ segs (s :: rel) Hsegs Hne Hplain).
  rewrite (relative_rooted_append _ segs (s :: rel) Hsegs Hne Hplain).
  rewrite (normalizePath_id (Js.join "/" (s :: rel)))
    by (first [apply hasDriveLetter_join; exact Hdrive
              |apply join_no_backslash; exact Hback]).
  rewrite (startsWith_dotdot_join s rel Hs Hdots).
  unfold Devkit.joinPathFragments.
  assert (Hjoin : Path.join ["{projectRoot}"; Js.join "/" (s :: rel)]
                  = Js.join "/" ("{projectRoot}" :: s :: rel)).
  { destruct (join_plain_head (s :: rel) Hne Hplain) as (a & r & Hj & _).
    unfold Path.join.
    rewrite filter_cons_True by discriminate.
    rewrite filter_cons_True by (rewrite Hj; discriminate).
    rewrite filter_nil.
    apply (normalize_plain ("{projectRoot}" :: s :: rel)); [discriminate|].
    constructor; [reflexivity|exact Hplain]. }
  rewrite Hjoin. apply normalizePath_id.
  - reflexivity.
  - apply (join_no_backslash ("{projectRoot}" :: s :: rel)).
    constructor; [reflexivity|exact Hback].
Qed.

End NormalizeOutput.

(** ** Normalized outputs *)

(** C3 at two inputs. An absolute [/tmp/out.cache] lies outside the
    project and the workspace: joining the workspace token with the
    relative path [../tmp/out.cache] cancels the token, and what comes back
    is the bare path [tmp/out.cache]. A path [..cache/out] stays inside the
    project, but its relative form starts with two dots and is sent to the
    workspace token. *)
Theorem normalizeOutput_token_lost :
  let h := Demo.host Demo.plainConfig [] in
  Path.resolve (processCwd h) ["/ws"; "proj"] = "/ws/proj"
  ∧ Path.resolve (processCwd h) ["/ws/proj"; "/tmp/out.cache"]
    = "/tmp/out.cache"
  ∧ normalizeOutput h "/tmp/out.cache" "/ws" "proj" = "tmp/out.cache"
  ∧ Path.resolve (processCwd h) ["/ws/proj"; "..cache/out"]
    = "/ws/proj/..cache/out"
  ∧ normalizeOutput h "..cache/out" "/ws" "proj"
    = "{workspaceRoot}/proj/..cache/out".
Proof. cbv zeta. repeat split; vm_compute; reflexivity. Qed.

(** ** Reading the configuration *)

(** C10: a [cacheResultFile] attribute that is present but empty gives the
    default test-output path, the same as an absent attribute: the reader
    tests the attribute for truthiness, not for presence. *)
Theorem getTestOutput_empty_is_default (ts : PhpUnitTestSuite)
    (cov : option PhpUnitCoverage) :
  getTestOutput
    {| cacheResultFile := Some ""; testsuite := ts; coverage := cov |}
  = ".phpunit.cache/test-results"
  ∧ getTestOutput
      {| cacheResultFile := Some ""; testsuite := ts; coverage := cov |}
    = getTestOutput
        {| cacheResultFile := None; testsuite := ts; coverage := cov |}.
Proof. split; reflexivity. Qed.

(** ** Output subfolders of the per-file targets *)

Lemma tokenChar_separator (a : ascii) :
  isTokenSeparator a = true → tokenChar a = "-"%char.
Proof.
  unfold isTokenSeparator, tokenChar.
  destruct (Ascii.eqb_spec a "/") as [->|_]; [reflexivity|].
  destruct (Ascii.eqb_spec a "\") as [->|_]; [reflexivity|].
  simpl.
  destruct (Ascii.eqb_spec a ".") as [->|_]; [reflexivity|].
  destruct (Ascii.eqb_spec a "-") as [->|_]; [reflexivity|].
  discriminate.
Qed.

Lemma tokenChar_other (a : ascii) :
  isTokenSeparator a = false → tokenChar a = a ∧ a ≠ "-"%char.
Proof.
  unfold isTokenSeparator, tokenChar.
  destruct (Ascii.eqb_spec a "/") as [->|_]; [discriminate|].
  destruct (Ascii.eqb_spec a "\") as [->|_]; [discriminate|].
  simpl.
  destruct (Ascii.eqb_spec a ".") as [->|_]; [discriminate|].
  destruct (Ascii.eqb_spec a "-") as [->|Hne]; [discriminate|].
  intros _. split; [reflexivity|exact Hne].
Qed.

Lemma tokenChar_eq_iff (a b : ascii) :
  tokenChar a = tokenChar b
  ↔ Ascii.eqb a b || (isTokenSeparator a && isTokenSeparator b) = true.
Proof.
  destruct (isTokenSeparator a) eqn:Ha, (isTokenSeparator b) eqn:Hb.
  - rewrite (tokenChar_separator a Ha), (tokenChar_separator b Hb).
    rewrite orb_true_r. split; reflexivity.
  - rewrite (tokenChar_separator a Ha).
    destruct (tokenChar_other b Hb) as [-> Hne].
    destruct (Ascii.eqb_spec a b) as [->|_]; [congruence|].
    simpl. split; [congruence|discriminate].
  - rewrite (tokenChar_separator b Hb).
    destruct (tokenChar_other a Ha) as [-> Hne].
    destruct (Ascii.eqb_spec a b) as [->|_]; [congruence|].
    simpl. split; [congruence|discriminate].
  - destruct (tokenChar_other a Ha) as [-> _].
    destruct (tokenChar_other b Hb) as [-> _].
    rewrite andb_false_r, orb_false_r.
    destruct (Ascii.eqb_spec a b); split; congruence.
Qed.

Lemma replaceAll_token_eq (p q : string) :
  Js.replaceAll (λ a, Ascii.eqb a ".") "-"
    (Js.replaceAll (λ a, Ascii.eqb a "/" || Ascii.eqb a "\") "-" p)
  = Js.replaceAll (λ a, Ascii.eqb a ".") "-"
      (Js.replaceAll (λ a, Ascii.eqb a "/" || Ascii.eqb a "\") "-" q)
  ↔ agreeUpToSeparators p q = true.
Proof.
  revert q. induction p as [|a p IH]; intros [|b q]; simpl.
  - split; reflexivity.
  - split; discriminate.
  - split; discriminate.
  - rewrite andb_true_iff, <- IH, <- tokenChar_eq_iff. unfold tokenChar.
    split.
    + intros Heq. injection Heq as Hhd Htl. split; assumption.
    + intros [Hhd Htl]. rewrite Hhd, Htl. reflexivity.
Qed.

(** C7, as the code has it: two test files of a project receive the same
    subfolder token exactly when their project-relative paths have the same
    length and, position by position, hold the same character or two of
    the characters [/], [\], [.] and [-]. *)
Theorem outputSubfolder_eq_iff (h : Host) (projectRoot f1 f2 : string) :
  outputSubfolder h projectRoot f1 = outputSubfolder h projectRoot f2
  ↔ agreeUpToSeparators
      (Path.relative (processCwd h) projectRoot f1)
      (Path.relative (processCwd h) projectRoot f2)
    = true.
Proof. unfold outputSubfolder. apply replaceAll_token_eq. Qed.

(** C7 as stated fails: [a/b/FooTest.php] and [a-b/FooTest.php] are two
    test files of the project [proj] with distinct relative paths, one
    subfolder token and the same outputs. *)
Lemma outputSubfolder_collision :
  let h := Demo.host Demo.plainConfig
             ["proj/a/b/FooTest.php"; "proj/a-b/FooTest.php"] in
  discovered h Demo.context "proj"
  = ["proj/a/b/FooTest.php"; "proj/a-b/FooTest.php"]
  ∧ Path.relative (processCwd h) "proj" "proj/a/b/FooTest.php"
    ≠ Path.relative (processCwd h) "proj" "proj/a-b/FooTest.php"
  ∧ outputSubfolder h "proj" "proj/a/b/FooTest.php" = "a-b-FooTest-php"
  ∧ outputSubfolder h "proj" "proj/a-b/FooTest.php" = "a-b-FooTest-php"
  ∧ getTargetOutputs h ".phpunit.cache/test-results" None "/ws" "proj"
      (Some (outputSubfolder h "proj" "proj/a/b/FooTest.php"))
    = getTargetOutputs h ".phpunit.cache/test-results" None "/ws" "proj"
        (Some (outputSubfolder h "proj" "proj/a-b/FooTest.php")).
Proof.
  cbv zeta. split; [vm_compute; reflexivity|].
  split; [vm_compute; discriminate|].
  repeat split; vm_compute; reflexivity.
Qed.

(** ** The target builder *)

Section Builder.

Variable h : Host.

Lemma fold_left_matching {S} (cb : S → string → S) (files : list string)
    (st : S) :
  fold_left (λ st file, if createMatcher file then cb st file else st)
    files st
  = fold_left cb (filter (λ f, createMatcher f = true) files) st.
Proof.
  revert st. induction files as [|f files IH]; intros st; [reflexivity|].
  simpl. rewrite IH. unfold filter at 2; simpl.
  destruct (createMatcher f) eqn:Hm.
  - rewrite decide_True by reflexivity. reflexivity.
  - rewrite decide_False by discriminate. reflexivity.
Qed.

Lemma forEachTestFile_discovered {S} (cb : S → string → S)
    (context : CreateNodesContext) (path : string) (st : S) :
  forEachTestFile h cb context path st
  = fold_left cb (discovered h context path) st.
Proof. apply fold_left_matching. Qed.

(** The builder once the configuration file has been read and parsed. *)
Lemma buildPhpUnitTargets_parsed (configFilePath projectRoot : string)
    (opts : NormalizedOptions) (context : CreateNodesContext)
    (content : string) (cfg : PhpUnitConfiguration) :
  readFileSync h (Path.join [workspaceRoot context; configFilePath])
  = Ok content →
  xmlParse h content = Ok cfg →
  buildPhpUnitTargets h configFilePath projectRoot opts context
  = let namedInputs := getNamedInputs h projectRoot context in
    let baseOutputs :=
      getTargetOutputs h (getTestOutput cfg) (getCoverageOutput cfg)
        (workspaceRoot context) projectRoot None in
    let base := cachedTargetConfig namedInputs baseOutputs in
    let targets0 : gmap string TargetConfiguration :=
      <[targetName opts := base]> ∅ in
    if Js.truthyOpt (ciTargetName opts) then
      let ci := Js.nullish (ciTargetName opts) "" in
      let st :=
        fold_left
          (addTestFileTarget h ci base (getTestOutput cfg)
             (getCoverageOutput cfg) context projectRoot)
          (discovered h context (testDirOf projectRoot cfg))
          {| ciTargets := targets0; ciTargetGroup := [];
             ciDependsOn := [] |} in
      Ok {| targets :=
              <[ci := aggregatorTarget opts base (ciDependsOn st)]>
                (ciTargets st);
            projectMetadata :=
              Some {| targetGroups :=
                        {[ groupName := ciTargetGroup st ++ [ci] ]} |} |}
    else Ok {| targets := targets0; projectMetadata := None |}.
Proof.
  intros Hread Hparse. unfold buildPhpUnitTargets.
  rewrite Hread. simpl. rewrite Hparse. simpl.
  destruct (ciTargetName opts) as [ci|]; simpl; [|reflexivity].
  destruct (Js.truthy ci); [|reflexivity].
  rewrite forEachTestFile_discovered.
  do 2 f_equal.
  destruct (ciTargets _ !! ci) eqn:Hci; [reflexivity|].
  apply insert_insert_eq.
Qed.

End Builder.

Section EveryTarget.

Variable h : Host.
Variables (ci : string) (base : TargetConfiguration) (testOutput : string)
  (coverageOutput : option string) (context : CreateNodesContext)
  (projectRoot : string).

(** Every target the callback has registered is either one that was
    there before or the target of one of the files visited. *)
Lemma fold_addTestFileTarget_lookup (P : TargetConfiguration → Prop)
    (files : list string) (st : CiState) :
  (∀ name tc, ciTargets st !! name = Some tc → P tc) →
  (∀ f, f ∈ files →
        P (perFileTarget h base testOutput coverageOutput context
             projectRoot f)) →
  ∀ name tc,
    ciTargets
      (fold_left
         (addTestFileTarget h ci base testOutput coverageOutput context
            projectRoot)
         files st) !! name = Some tc →
    P tc.
Proof.
  revert st. induction files as [|f files IH]; intros st Hst Hfiles;
    [exact Hst|].
  simpl. apply IH.
  - intros name tc. unfold addTestFileTarget. simpl.
    rewrite lookup_insert. case_decide as Hname.
    + intros [= <-]. apply Hfiles. left.
    + apply Hst.
  - intros f' Hf'. apply Hfiles. right. exact Hf'.
Qed.

Lemma fold_addTestFileTarget_keeps (files : list string) (st : CiState)
    (name : string) :
  is_Some (ciTargets st !! name) →
  is_Some
    (ciTargets
       (fold_left
          (addTestFileTarget h ci base testOutput coverageOutput context
             projectRoot)
          files st) !! name).
Proof.
  revert st. induction files as [|f files IH]; intros st Hst; [exact Hst|].
  simpl. apply IH. unfold addTestFileTarget. simpl.
  rewrite lookup_insert. case_decide; [eauto|exact Hst].
Qed.

(** The group and the dependencies grow by one name per file visited, in
    the order of the visits. *)
Lemma fold_addTestFileTarget_group (files : list string) (st : CiState) :
  let st' :=
    fold_left
      (addTestFileTarget h ci base testOutput coverageOutput context
         projectRoot)
      files st in
  ciTargetGroup st'
  = ciTargetGroup st ++ (perFileTargetName h ci projectRoot <$> files)
  ∧ ciDependsOn st'
    = ciDependsOn st
      ++ (dependencyOn <$> (perFileTargetName h ci projectRoot <$> files)).
Proof.
  cbv zeta. revert st. induction files as [|f files IH]; intros st; simpl.
  - rewrite !app_nil_r. split; reflexivity.
  - destruct (IH (addTestFileTarget h ci base testOutput coverageOutput
                    context projectRoot st f)) as [-> ->].
    simpl. rewrite <- !app_assoc. split; reflexivity.
Qed.

(** Every file visited has a target under its name. *)
Lemma fold_addTestFileTarget_registers (files : list string) (st : CiState)
    (f : string) :
  f ∈ files →
  is_Some
    (ciTargets
       (fold_left
          (addTestFileTarget h ci base testOutput coverageOutput context
             projectRoot)
          files st) !! perFileTargetName h ci projectRoot f).
Proof.
  revert st. induction files as [|g files IH]; intros st Hf;
    [inversion Hf|].
  simpl. apply elem_of_cons in Hf as [->|Hf]; [|apply IH; exact Hf].
  apply fold_addTestFileTarget_keeps. unfold addTestFileTarget. simpl.
  rewrite lookup_insert_eq. eauto.
Qed.

End EveryTarget.

(** C9: with a CI target name and no test file matching [*Test.php] under
    the directory of the test suite, the builder still registers the
    aggregator under that name, a [nx:noop] target that depends on nothing,
    and the group "Test (CI)" lists that one name. *)
Theorem aggregator_without_test_files (h : Host)
    (configFilePath projectRoot : string) (opts : NormalizedOptions)
    (context : CreateNodesContext) (content : string)
    (cfg : PhpUnitConfiguration) (ci : string) :
  readFileSync h (Path.join [workspaceRoot context; configFilePath])
  = Ok content →
  xmlParse h content = Ok cfg →
  ciTargetName opts = Some ci →
  ci ≠ "" →
  discovered h context (testDirOf projectRoot cfg) = [] →
  ∃ (t : PhpUnitTargets) (agg : TargetConfiguration),
    buildPhpUnitTargets h configFilePath projectRoot opts context = Ok t
    ∧ targets t !! ci = Some agg
    ∧ executor agg = Some "nx:noop"
    ∧ dependsOn agg = Some []
    ∧ projectMetadata t
      = Some {| targetGroups := {[ "Test (CI)" := [ci] ]} |}.
Proof.
  intros Hread Hparse Hci Hne Hnone.
  rewrite (buildPhpUnitTargets_parsed h _ _ _ _ _ _ Hread Hparse).
  cbv zeta. rewrite Hci, Hnone. simpl.
  assert (Htruthy : Js.truthy ci = true).
  { unfold Js.truthy. destruct (String.eqb_spec ci ""); [contradiction|].
    reflexivity. }
  rewrite Htruthy.
  eexists _, _. split; [reflexivity|]. simpl.
  split; [apply lookup_insert_eq|]. repeat split.
Qed.

Lemma aggregator_without_test_files_witness :
  ∃ (t : PhpUnitTargets) (agg : TargetConfiguration),
    buildPhpUnitTargets (Demo.host Demo.plainConfig ["proj/tests/helper.php"])
      "proj/phpunit.xml" "proj"
      {| targetName := "test"; ciTargetName := Some "test-ci" |} Demo.context
    = Ok t
    ∧ targets t !! "test-ci" = Some agg
    ∧ executor agg = Some "nx:noop"
    ∧ dependsOn agg = Some []
    ∧ projectMetadata t
      = Some {| targetGroups := {[ "Test (CI)" := ["test-ci"] ]} |}.
Proof.
  apply (aggregator_without_test_files
           (Demo.host Demo.plainConfig ["proj/tests/helper.php"])
           "proj/phpunit.xml" "proj"
           {| targetName := "test"; ciTargetName := Some "test-ci" |}
           Demo.context "<phpunit/>" Demo.plainConfig "test-ci").
  - reflexivity.
  - reflexivity.
  - reflexivity.
  - discriminate.
  - vm_compute. reflexivity.
Defined.

(** C1, as the code has it: an empty [ciTargetName] leaves the base target
    alone in the result, with no group; an absent or undefined
    [ciTargetName] is replaced by the default ["test-ci"], under which the
    aggregator is registered, depending on one target per discovered test
    file, all of them listed in the group "Test (CI)". *)
Theorem ciTargetName_empty_disables_absent_defaults (h : Host)
    (configFilePath projectRoot : string) (o : PhpUnitPluginOptions)
    (context : CreateNodesContext) (content : string)
    (cfg : PhpUnitConfiguration) :
  readFileSync h (Path.join [workspaceRoot context; configFilePath])
  = Ok content →
  xmlParse h content = Ok cfg →
  let base :=
    cachedTargetConfig (getNamedInputs h projectRoot context)
      (getTargetOutputs h (getTestOutput cfg) (getCoverageOutput cfg)
         (workspaceRoot context) projectRoot None) in
  let testFiles := discovered h context (testDirOf projectRoot cfg) in
  let names := perFileTargetName h "test-ci" projectRoot <$> testFiles in
  (opt_ciTargetName o = Some "" →
   buildPhpUnitTargets h configFilePath projectRoot (normalizeOptions o)
     context
   = Ok {| targets := {[ targetName (normalizeOptions o) := base ]};
           projectMetadata := None |})
  ∧ (opt_ciTargetName o = None →
     ciTargetName (normalizeOptions o) = Some "test-ci"
     ∧ ∃ t : PhpUnitTargets,
         buildPhpUnitTargets h configFilePath projectRoot
           (normalizeOptions o) context
         = Ok t
         ∧ targets t !! "test-ci"
           = Some (aggregatorTarget (normalizeOptions o) base
                     (dependencyOn <$> names))
         ∧ (∀ f, f ∈ testFiles →
                 is_Some
                   (targets t !! perFileTargetName h "test-ci" projectRoot f))
         ∧ projectMetadata t
           = Some {| targetGroups :=
                       {[ "Test (CI)" := names ++ ["test-ci"] ]} |}).
Proof.
  intros Hread Hparse base testFiles names.
  rewrite (buildPhpUnitTargets_parsed h _ _ _ _ _ _ Hread Hparse).
  cbv zeta. split; intros Hci.
  - unfold normalizeOptions. rewrite Hci. simpl.
    rewrite insert_empty. reflexivity.
  - split; [unfold normalizeOptions; rewrite Hci; reflexivity|].
    unfold normalizeOptions. rewrite Hci. simpl.
    eexists. split; [reflexivity|]. simpl.
    match goal with
    | |- context [fold_left ?cb ?fs ?st] =>
        destruct (fold_addTestFileTarget_group h "test-ci" base
                    (getTestOutput cfg) (getCoverageOutput cfg) context
                    projectRoot fs st) as [Hgroup Hdeps]
    end.
    cbv zeta in Hgroup, Hdeps. fold base testFiles in Hgroup, Hdeps |- *.
    rewrite Hgroup, Hdeps. simpl.
    split; [apply lookup_insert_eq|]. split; [|reflexivity].
    intros f Hf. rewrite lookup_insert. case_decide; [eauto|].
    apply fold_addTestFileTarget_registers. exact Hf.
Qed.

Lemma ciTargetName_empty_disables_absent_defaults_witness :
  buildPhpUnitTargets (Demo.host Demo.plainConfig Demo.testFiles)
    "proj/phpunit.xml" "proj"
    (normalizeOptions {| opt_targetName := None; opt_ciTargetName := Some "" |})
    Demo.context
  = Ok {| targets :=
            {[ "test" :=
                 cachedTargetConfig ∅
                   ["{projectRoot}/.phpunit.cache/test-results"] ]};
          projectMetadata := None |}
  ∧ ciTargetName
      (normalizeOptions {| opt_targetName := None; opt_ciTargetName := None |})
    = Some "test-ci".
Proof.
  split.
  - apply (ciTargetName_empty_disables_absent_defaults
             (Demo.host Demo.plainConfig Demo.testFiles)
             "proj/phpunit.xml" "proj"
             {| opt_targetName := None; opt_ciTargetName := Some "" |}
             Demo.context "<phpunit/>" Demo.plainConfig).
    + reflexivity.
    + reflexivity.
    + reflexivity.
  - apply (ciTargetName_empty_disables_absent_defaults
             (Demo.host Demo.plainConfig Demo.testFiles)
             "proj/phpunit.xml" "proj"
             {| opt_targetName := None; opt_ciTargetName := None |}
             Demo.context "<phpunit/>" Demo.plainConfig).
    + reflexivity.
    + reflexivity.
    + reflexivity.
Defined.

(** C1 as stated fails when [ciTargetName] is absent: the default
    ["test-ci"] applies, and the builder emits the aggregator and one
    target per test file next to the base target. *)
Lemma absent_ciTargetName_generates_ci_targets :
  ∃ t : PhpUnitTargets,
    buildPhpUnitTargets (Demo.host Demo.plainConfig Demo.testFiles)
      "proj/phpunit.xml" "proj"
      (normalizeOptions {| opt_targetName := None; opt_ciTargetName := None |})
      Demo.context
    = Ok t
    ∧ dom (targets t)
      = {[ "test"; "test-ci"; "test-ci--tests/FooTest.php";
           "test-ci--tests/sub/BarTest.php" ]}
    ∧ (executor <$> targets t !! "test-ci") = Some (Some "nx:noop").
Proof.
  eexists. split; [vm_compute; reflexivity|].
  split; vm_compute; reflexivity.
Qed.

(** ** Outputs of the targets *)

Lemma setAdd_elem (l : list string) (x y : string) :
  y ∈ Js.setAdd l x ↔ y ∈ l ∨ y = x.
Proof.
  unfold Js.setAdd. case_bool_decide as Hin.
  - split; [auto|]. intros [Hy| ->]; assumption.
  - rewrite elem_of_app, list_elem_of_singleton. reflexivity.
Qed.

Lemma setAdd_NoDup (l : list string) (x : string) :
  NoDup l → NoDup (Js.setAdd l x).
Proof.
  intros Hl. unfold Js.setAdd. case_bool_decide as Hin; [exact Hl|].
  apply NoDup_app. split; [exact Hl|]. split; [|apply NoDup_singleton].
  intros y Hy Hyx. apply list_elem_of_singleton in Hyx as ->. contradiction.
Qed.

Lemma getTargetOutputs_NoDup (h : Host) (testOutput : string)
    (coverageOutput : option string) (ws root : string)
    (sub : option string) :
  NoDup (getTargetOutputs h testOutput coverageOutput ws root sub).
Proof.
  unfold getTargetOutputs.
  assert (Hfirst : ∀ x, NoDup (Js.setAdd [] x))
    by (intros x; apply setAdd_NoDup; constructor).
  destruct coverageOutput as [cov|]; [|apply Hfirst].
  destruct (Js.truthy cov); [|apply Hfirst].
  apply setAdd_NoDup, Hfirst.
Qed.

(** C2 at a configuration file whose root element declares
    [cacheResultFile='custom/out.cache']: the attribute is below the key
    [phpunit] of the parsed object and [getTestOutput] looks for it on the
    object itself, where it finds nothing, in this document and in every
    other. The builder, called without a CI target name or through the
    options that disable it, returns the one target ["test"], and its
    outputs are the default ["{projectRoot}/.phpunit.cache/test-results"],
    not ["{projectRoot}/custom/out.cache"]. *)
Theorem custom_cache_file_is_not_read :
  let h :=
    Demo.documentHost Demo.customCacheXml Demo.customCacheDocument
      Demo.testFiles in
  let defaultOutput :=
    {| targets :=
         {[ "test" :=
              cachedTargetConfig ∅
                ["{projectRoot}/.phpunit.cache/test-results"] ]};
       projectMetadata := None |} in
  rootCacheResultFile Demo.customCacheDocument = Some "custom/out.cache"
  ∧ (∀ doc : PhpUnitDocument,
       getTestOutput (parsePhpUnitDocument doc)
       = ".phpunit.cache/test-results")
  ∧ buildPhpUnitTargets h "proj/phpunit.xml" "proj"
      {| targetName := "test"; ciTargetName := None |} Demo.context
    = Ok defaultOutput
  ∧ buildPhpUnitTargets h "proj/phpunit.xml" "proj"
      (normalizeOptions
         {| opt_targetName := None; opt_ciTargetName := Some "" |})
      Demo.context
    = Ok defaultOutput.
Proof.
  cbv zeta. split; [reflexivity|]. split; [intros doc; reflexivity|].
  split; vm_compute; reflexivity.
Qed.

Lemma tokenChar_not_separator (a : ascii) :
  Ascii.eqb (tokenChar a) "/" = false
  ∧ Ascii.eqb (tokenChar a) "\" = false
  ∧ Ascii.eqb (tokenChar a) "." = false.
Proof.
  destruct (isTokenSeparator a) eqn:Ha.
  - rewrite (tokenChar_separator a Ha). repeat split.
  - destruct (tokenChar_other a Ha) as [-> _].
    unfold isTokenSeparator in Ha. rewrite !orb_false_iff in Ha. tauto.
Qed.

(** The subfolder token holds no slash, no back slash and no dot. *)
Lemma outputSubfolder_chars (h : Host) (projectRoot testFile : string) :
  let sub := outputSubfolder h projectRoot testFile in
  Js.includesChar "/" sub = false
  ∧ Js.includesChar "\" sub = false
  ∧ Js.includesChar "." sub = false.
Proof.
  unfold outputSubfolder.
  generalize (Path.relative (processCwd h) projectRoot testFile).
  intros p. cbv zeta.
  induction p as [|a p (IH1 & IH2 & IH3)]; [repeat split|].
  destruct (tokenChar_not_separator a) as (H1 & H2 & H3).
  unfold tokenChar in H1, H2, H3. simpl.
  rewrite H1, H2, H3, IH1, IH2, IH3. repeat split.
Qed.


(** C8 at a configuration file that declares
    [<coverage cacheDirectory='coverage'/>]: the element is below the key
    [phpunit] of the parsed object and [getCoverageOutput] looks for it on
    the object itself, where it finds nothing, in this document and in
    every other. No target of the result lists
    ["{projectRoot}/coverage"]: the base target and the aggregator list
    the test-output path alone, and the target of a test file lists that
    path moved into the subfolder of the file. *)
Theorem coverage_directory_is_not_read :
  let h :=
    Demo.documentHost Demo.coverageXml Demo.coverageDocument
      Demo.testFiles in
  coverageCacheDirectory Demo.coverageDocument = Some "coverage"
  ∧ (∀ doc : PhpUnitDocument,
       getCoverageOutput (parsePhpUnitDocument doc) = None)
  ∧ ∃ t : PhpUnitTargets,
      buildPhpUnitTargets h "proj/phpunit.xml" "proj" Demo.defaultOptions
        Demo.context
      = Ok t
      ∧ outputsOf <$> targets t
        = {[ "test" := ["{projectRoot}/.phpunit.cache/test-results"];
             "test-ci" := ["{projectRoot}/.phpunit.cache/test-results"];
             "test-ci--tests/FooTest.php" :=
               ["{projectRoot}/.phpunit.cache/test-results/"
                +:+ "tests-FooTest-php"];
             "test-ci--tests/sub/BarTest.php" :=
               ["{projectRoot}/.phpunit.cache/test-results/"
                +:+ "tests-sub-BarTest-php"] ]}.
Proof.
  cbv zeta. split; [reflexivity|]. split; [intros doc; reflexivity|].
  eexists. split; vm_compute; reflexivity.
Qed.

(** Were the coverage element a key of the parsed object itself, the
    targets of the test files would not list ["{projectRoot}/coverage"]
    either: the outputs of the target of [tests/FooTest.php] hold the
    coverage directory of that file,
    ["{projectRoot}/coverage/tests-FooTest-php"]. *)
Lemma per_file_outputs_omit_coverage_root :
  ∃ (t : PhpUnitTargets) (tc : TargetConfiguration),
    buildPhpUnitTargets (Demo.host Demo.coverageConfig Demo.testFiles)
      "proj/phpunit.xml" "proj" Demo.defaultOptions Demo.context
    = Ok t
    ∧ targets t !! "test-ci--tests/FooTest.php" = Some tc
    ∧ outputs tc
      = Some ["{projectRoot}/.phpunit.cache/test-results/tests-FooTest-php";
              "{projectRoot}/coverage/tests-FooTest-php"]
    ∧ "{projectRoot}/coverage" ∉ outputsOf tc.
Proof.
  eexists _, _. split; [vm_compute; reflexivity|].
  split; [vm_compute; reflexivity|].
  split; [reflexivity|].
  unfold outputsOf. simpl. rewrite list_elem_of_In. simpl.
  intros [Heq|[Heq|[]]]; discriminate Heq.
Qed.

(** ** Projects without a manifest *)

(** C5: when the directory of a configuration file lists no
    [composer.json], the file yields the empty result [{}], which holds no
    project, the call does not throw, and the store is left as it was. *)
Theorem createNodesInternal_without_manifest (h : Host)
    (configFilePath : string) (o : PhpUnitPluginOptions)
    (context : CreateNodesContext) (targetsCache : Store)
    (siblingFiles : list string) :
  readdirSync h
    (Path.join [workspaceRoot context; Path.dirname configFilePath])
  = Ok siblingFiles →
  "composer.json" ∉ siblingFiles →
  createNodesInternal h configFilePath o context targetsCache
  = (Ok {| projectsOf := None |}, targetsCache).
Proof.
  intros Hdir Hno. unfold createNodesInternal. rewrite Hdir.
  rewrite bool_decide_eq_false_2 by exact Hno. reflexivity.
Qed.

Lemma createNodesInternal_without_manifest_witness :
  createNodesInternal (Demo.host Demo.plainConfig Demo.testFiles)
    "fixture/phpunit.xml" {| opt_targetName := None; opt_ciTargetName := None |}
    Demo.context ∅
  = (Ok {| projectsOf := None |}, ∅).
Proof.
  apply (createNodesInternal_without_manifest
           (Demo.host Demo.plainConfig Demo.testFiles)
           "fixture/phpunit.xml" _ Demo.context ∅ ["phpunit.xml"]).
  - reflexivity.
  - rewrite list_elem_of_In. simpl. intros [Heq | []]. discriminate Heq.
Defined.

(** ** Reading and writing the store *)

(** A batch whose store can be read visits its files and writes the store
    they leave. *)
Lemma createNodesV2_readable (h : Host) (configFilePaths : list string)
    (o : option PhpUnitPluginOptions) (context : CreateNodesContext)
    (w : World) (targetsCache : Store) :
  readTargetsCache (cachePathOf h o) w = Ok targetsCache →
  let c :=
    createNodesFromFiles
      (λ configFile,
         createNodesInternal h configFile (Js.nullish o emptyOptions) context)
      configFilePaths targetsCache in
  createNodesV2 h configFilePaths o context w
  = (outcome c,
     writeTargetsToCache (cachePathOf h o) (store c)
       {| disk := disk w; trace := trace w ++ steps c |}).
Proof. intros Hread. unfold createNodesV2. rewrite Hread. reflexivity. Qed.

(** A batch whose store cannot be read ends with the error of the read and
    leaves the world as it found it. *)
Lemma createNodesV2_unreadable (h : Host) (configFilePaths : list string)
    (o : option PhpUnitPluginOptions) (context : CreateNodesContext)
    (w : World) (e : error) :
  readTargetsCache (cachePathOf h o) w = Err e →
  createNodesV2 h configFilePaths o context w = (Err (StoreReadError e), w).
Proof. intros Hread. unfold createNodesV2. rewrite Hread. reflexivity. Qed.

Lemma readTargetsCache_written (cachePath : string) (results : Store)
    (w : World) :
  readTargetsCache cachePath (writeTargetsToCache cachePath results w)
  = Ok results.
Proof.
  unfold readTargetsCache, writeTargetsToCache. cbn [disk].
  rewrite lookup_insert_eq. reflexivity.
Qed.

Lemma readTargetsCache_cleared (h : Host) (o : option PhpUnitPluginOptions)
    (w : World) :
  readTargetsCache (cachePathOf h o) (clearStore h o w) = Ok ∅.
Proof.
  unfold readTargetsCache, clearStore. cbn [disk].
  rewrite lookup_delete_eq. reflexivity.
Qed.

(** ** Memoization *)

Section Memoization.

Variable h : Host.
Variable o : PhpUnitPluginOptions.
Variable context : CreateNodesContext.
Variable files : list string.
Hypothesis separates : hashSeparates h o context files.

(** On a sound store the memoized function returns what recomputing
    returns, and leaves the store sound. *)
Lemma createNodesInternal_recompute (f : string) (s : Store) :
  f ∈ files →
  storeSound h o context files s →
  fst (createNodesInternal h f o context s) = recomputeNodes h f o context
  ∧ storeSound h o context files
      (snd (createNodesInternal h f o context s)).
Proof.
  intros Hf Hsound. unfold createNodesInternal, recomputeNodes.
  destruct (readdirSync h _) as [siblings|e]; simpl; [|auto].
  destruct (negb _); simpl; [auto|].
  destruct (readFileSync h _) as [content|e]; simpl; [|auto].
  destruct (jsonParse h content) as [composerJson|e]; simpl; [|auto].
  fold (hashKey h o context f).
  destruct (s !! hashKey h o context f) as [hit|] eqn:Hlook.
  - rewrite (Hsound f hit Hf Hlook). simpl.
    destruct composerJson; simpl; auto.
  - destruct (buildPhpUnitTargets h f _ _ _) as [built|e] eqn:Hbuild;
      simpl; [|auto].
    assert (Hsound' : storeSound h o context files
                        (<[hashKey h o context f := built]> s)).
    { intros g b Hg. rewrite lookup_insert. case_decide as Hkey.
      - intros [= <-]. rewrite <- (separates f g Hf Hg Hkey). exact Hbuild.
      - apply Hsound. exact Hg. }
    destruct composerJson; simpl; auto.
Qed.

Lemma fold_visitFile_recompute (fs : list string) (acc acc' : Collected) :
  (∀ f, f ∈ fs → f ∈ files) →
  storeSound h o context files (store acc) →
  results acc = results acc' →
  failures acc = failures acc' →
  let c :=
    fold_left (visitFile (λ f, createNodesInternal h f o context)) fs acc in
  let c' :=
    fold_left (visitFile (λ f s, (recomputeNodes h f o context, s))) fs
      acc' in
  results c = results c' ∧ failures c = failures c'
  ∧ storeSound h o context files (store c).
Proof.
  revert acc acc'. induction fs as [|f fs IH];
    intros acc acc' Hsub Hsound Hres Hfail; [simpl; auto|].
  simpl. apply IH.
  - intros g Hg. apply Hsub. right. exact Hg.
  - unfold visitFile.
    destruct (createNodesInternal_recompute f (store acc)) as [_ Hs];
      [apply Hsub; left|exact Hsound|].
    destruct (createNodesInternal h f o context (store acc))
      as [[value|e] s']; exact Hs.
  - unfold visitFile.
    destruct (createNodesInternal_recompute f (store acc)) as [Hr _];
      [apply Hsub; left|exact Hsound|].
    rewrite <- Hr.
    destruct (createNodesInternal h f o context (store acc))
      as [[value|e] s']; simpl; congruence.
  - unfold visitFile.
    destruct (createNodesInternal_recompute f (store acc)) as [Hr _];
      [apply Hsub; left|exact Hsound|].
    rewrite <- Hr.
    destruct (createNodesInternal h f o context (store acc))
      as [[value|e] s']; simpl; congruence.
Qed.

(** A batch that starts from a sound store returns what the batch without
    a store returns, and ends with a sound store. *)
Lemma createNodesFromFiles_recompute (s : Store) :
  storeSound h o context files s →
  let c :=
    createNodesFromFiles (λ f, createNodesInternal h f o context) files s in
  outcome c
  = outcome
      (createNodesFromFiles (λ f s, (recomputeNodes h f o context, s))
         files ∅)
  ∧ storeSound h o context files (store c).
Proof.
  intros Hsound. cbv zeta. unfold createNodesFromFiles.
  destruct (fold_visitFile_recompute files
              {| store := s; results := []; failures := []; steps := [] |}
              {| store := ∅; results := []; failures := []; steps := [] |})
    as (Hres & Hfail & Hs); try reflexivity; [auto|exact Hsound|].
  split; [|exact Hs]. unfold outcome. rewrite Hres, Hfail. reflexivity.
Qed.

End Memoization.

Lemma storeSound_empty (h : Host) (o : PhpUnitPluginOptions)
    (context : CreateNodesContext) (files : list string) :
  storeSound h o context files ∅.
Proof. intros f built _. rewrite lookup_empty. discriminate. Qed.

(** C4: when the hash tells the configuration files of a batch apart, the
    batch run on a cleared store and the batch run again on the store the
    first run wrote both return what recomputing every file with
    [buildPhpUnitTargets] returns, and every entry the first run wrote for
    a file is the result of building that file. *)
Theorem memoization_preserves_results (h : Host)
    (configFilePaths : list string) (o : option PhpUnitPluginOptions)
    (context : CreateNodesContext) (w : World) :
  hashSeparates h (Js.nullish o emptyOptions) context configFilePaths →
  let cold := createNodesV2 h configFilePaths o context (clearStore h o w) in
  let warm := createNodesV2 h configFilePaths o context (snd cold) in
  fst cold = recomputeAll h configFilePaths o context
  ∧ fst warm = fst cold
  ∧ ∃ written : Store,
      readTargetsCache (cachePathOf h o) (snd cold) = Ok written
      ∧ storeSound h (Js.nullish o emptyOptions) context configFilePaths
          written.
Proof.
  intros Hsep. cbv zeta.
  set (o' := Js.nullish o emptyOptions) in *.
  destruct (createNodesFromFiles_recompute h o' context configFilePaths Hsep ∅
              (storeSound_empty h o' context configFilePaths))
    as [Hout Hsound].
  cbv zeta in Hout, Hsound.
  rewrite (createNodesV2_readable h configFilePaths o context
             (clearStore h o w) ∅ (readTargetsCache_cleared h o w)).
  cbv zeta. fold o'. cbn [fst snd].
  set (c := createNodesFromFiles (λ f, createNodesInternal h f o' context)
              configFilePaths ∅) in *.
  set (w1 := writeTargetsToCache (cachePathOf h o) (store c) _).
  assert (Hread : readTargetsCache (cachePathOf h o) w1 = Ok (store c))
    by apply readTargetsCache_written.
  split; [exact Hout|]. split.
  - rewrite (createNodesV2_readable h configFilePaths o context w1 (store c)
               Hread).
    cbv zeta. fold o'. cbn [fst]. rewrite Hout.
    apply (createNodesFromFiles_recompute h o' context configFilePaths Hsep).
    exact Hsound.
  - exists (store c). split; [exact Hread|exact Hsound].
Qed.

Lemma memoization_preserves_results_witness :
  let h := Demo.host Demo.plainConfig Demo.testFiles in
  let batch := ["proj/phpunit.xml"; "fixture/phpunit.xml"] in
  let cold :=
    createNodesV2 h batch None Demo.context
      (clearStore h None {| disk := ∅; trace := [] |}) in
  let warm := createNodesV2 h batch None Demo.context (snd cold) in
  fst cold = recomputeAll h batch None Demo.context
  ∧ fst warm = fst cold
  ∧ ∃ written : Store,
      readTargetsCache (cachePathOf h None) (snd cold) = Ok written
      ∧ storeSound h emptyOptions Demo.context batch written.
Proof.
  cbv zeta.
  apply (memoization_preserves_results
           (Demo.host Demo.plainConfig Demo.testFiles)
           ["proj/phpunit.xml"; "fixture/phpunit.xml"] None Demo.context
           {| disk := ∅; trace := [] |}).
  intros f g Hf Hg Hkey.
  apply list_elem_of_In in Hf, Hg. simpl in Hf, Hg.
  destruct Hf as [<-|[<-|[]]]; destruct Hg as [<-|[<-|[]]];
    try reflexivity; vm_compute in Hkey; discriminate Hkey.
Defined.

(** The store of the first run does hold an entry, the one of [proj], so
    that the second run answers from the store. *)
Lemma memoization_store_is_filled :
  let h := Demo.host Demo.plainConfig Demo.testFiles in
  let cold :=
    createNodesV2 h ["proj/phpunit.xml"; "fixture/phpunit.xml"] None
      Demo.context {| disk := ∅; trace := [] |} in
  ∃ written : Store,
    readTargetsCache (cachePathOf h None) (snd cold) = Ok written
    ∧ dom written = {[ "proj#test#test-ci" ]}.
Proof. eexists. split; vm_compute; reflexivity. Qed.

(** ** Persisting the store *)

Section Persistence.

Variable createNodes :
  string → Store → result error CreateNodesResult * Store.

Lemma visitFile_steps (acc : Collected) (file : string) :
  steps (visitFile createNodes acc file)
  = steps acc ++ [EvCreateNodes file].
Proof.
  unfold visitFile.
  destruct (createNodes file (store acc)) as [[value|e] s]; reflexivity.
Qed.

Lemma fold_visitFile_steps (files : list string) (acc : Collected) :
  steps (fold_left (visitFile createNodes) files acc)
  = steps acc ++ (EvCreateNodes <$> files).
Proof.
  revert acc. induction files as [|f files IH]; intros acc; simpl.
  - rewrite app_nil_r. reflexivity.
  - rewrite IH, visitFile_steps, <- app_assoc. reflexivity.
Qed.

Lemma createNodesFromFiles_steps (files : list string) (s : Store) :
  steps (createNodesFromFiles createNodes files s)
  = EvCreateNodes <$> files.
Proof. unfold createNodesFromFiles. apply fold_visitFile_steps. Qed.

End Persistence.

Lemma writesIn_app (t1 t2 : list event) :
  writesIn (t1 ++ t2) = writesIn t1 + writesIn t2.
Proof.
  induction t1 as [|[f|path s] t1 IH]; simpl; [reflexivity|exact IH|].
  rewrite IH. reflexivity.
Qed.

Lemma writesIn_createNodes (files : list string) :
  writesIn (EvCreateNodes <$> files) = 0.
Proof. induction files as [|f files IH]; [reflexivity|exact IH]. Qed.

(** C6: a batch whose store file is missing or holds a store extends the
    trace by the visits of all its files followed by one write of the
    store, the store as the last file left it, whatever it returns, a list
    of results or the aggregate of the errors its files raised, and that
    write is the only one of the batch. A batch whose store file cannot be
    read ends with the error of the read: it visits no file and writes
    nothing. *)
Theorem createNodesV2_writes_readable_store_once (h : Host)
    (configFilePaths : list string) (o : option PhpUnitPluginOptions)
    (context : CreateNodesContext) (w : World) :
  let run := createNodesV2 h configFilePaths o context w in
  match readTargetsCache (cachePathOf h o) w with
  | Ok targetsCache =>
      let c :=
        createNodesFromFiles
          (λ configFile,
             createNodesInternal h configFile (Js.nullish o emptyOptions)
               context)
          configFilePaths targetsCache in
      fst run = outcome c
      ∧ trace (snd run)
        = trace w ++ (EvCreateNodes <$> configFilePaths)
          ++ [EvWriteJson (cachePathOf h o) (store c)]
      ∧ writesIn (trace (snd run)) = writesIn (trace w) + 1
      ∧ disk (snd run) !! cachePathOf h o = Some (JsonFile (store c))
  | Err e => run = (Err (StoreReadError e), w)
  end.
Proof.
  cbv zeta.
  destruct (readTargetsCache (cachePathOf h o) w) as [targetsCache|e]
    eqn:Hread.
  - rewrite (createNodesV2_readable h configFilePaths o context w
               targetsCache Hread).
    cbv zeta. unfold writeTargetsToCache. cbn [fst snd trace disk].
    rewrite createNodesFromFiles_steps.
    split; [reflexivity|].
    split; [rewrite <- app_assoc; reflexivity|].
    split; [|apply lookup_insert_eq].
    rewrite !writesIn_app, writesIn_createNodes. simpl. lia.
  - apply createNodesV2_unreadable. exact Hread.
Qed.

(** A batch that finds a store file it cannot parse writes nothing: the
    trace stays empty and the file stays as it was. *)
Lemma unreadable_store_is_not_written :
  let h := Demo.host Demo.plainConfig Demo.testFiles in
  let w :=
    {| disk := {[ cachePathOf h None := BrokenFile "Unexpected token" ]};
       trace := [] |} in
  let run :=
    createNodesV2 h ["proj/phpunit.xml"; "fixture/phpunit.xml"] None
      Demo.context w in
  fst run = Err (StoreReadError (JsonError "Unexpected token"))
  ∧ writesIn (trace (snd run)) = 0
  ∧ disk (snd run) !! cachePathOf h None
    = Some (BrokenFile "Unexpected token").
Proof. cbv zeta. repeat split; vm_compute; reflexivity. Qed.

(** The two outcomes of a batch that could read its store: with a
    configuration file in a directory that cannot be listed the batch
    fails, without it the batch succeeds; either way the trace ends with
    the one write. *)
Lemma createNodesV2_outcomes :
  let h := Demo.host Demo.plainConfig Demo.testFiles in
  let w := {| disk := ∅; trace := [] |} in
  (∃ e, fst (createNodesV2 h ["proj/phpunit.xml"; "nowhere/phpunit.xml"]
               None Demo.context w) = Err (FilesError e)
        ∧ errors e = [("nowhere/phpunit.xml", FsError "/ws/nowhere")]
        ∧ writesIn
            (trace (snd (createNodesV2 h
                           ["proj/phpunit.xml"; "nowhere/phpunit.xml"]
                           None Demo.context w))) = 1)
  ∧ (∃ r, fst (createNodesV2 h ["proj/phpunit.xml"; "fixture/phpunit.xml"]
                 None Demo.context w) = Ok r
          ∧ length r = 2
          ∧ writesIn
              (trace (snd (createNodesV2 h
                             ["proj/phpunit.xml"; "fixture/phpunit.xml"]
                             None Demo.context w))) = 1).
Proof.
  cbv zeta. split.
  - eexists. repeat split; vm_compute; reflexivity.
  - eexists. repeat split; vm_compute; reflexivity.
Qed.

(** ** More on normalized outputs *)

Lemma normalizePath_forward (p : string) :
  Js.includesChar "\" (Devkit.normalizePath p) = false.
Proof.
  unfold Devkit.normalizePath.
  apply join_no_backslash, split_parts.
Qed.

(** X1: whatever the path, the workspace root and the project root, the
    normalized output holds no back slash. *)
Theorem normalizeOutput_forward_slashes (h : Host)
    (path workspaceRoot projectRoot : string) :
  Js.includesChar "\" (normalizeOutput h path workspaceRoot projectRoot)
  = false.
Proof.
  unfold normalizeOutput, Devkit.joinPathFragments.
  destruct (Js.startsWith _ ".."); apply normalizePath_forward.
Qed.

(** X2: a relative output path made of ordinary segments is normalized to
    the project token followed by the path itself, whatever the workspace
    root and the project root are. *)
Theorem normalizeOutput_project_relative (h : Host) (rel : list string)
    (workspaceRoot projectRoot : string) :
  Path.isAbsolute (processCwd h) = true →
  insideSegments rel = true →
  normalizeOutput h (Js.join "/" rel) workspaceRoot projectRoot
  = "{projectRoot}/" +:+ Js.join "/" rel.
Proof. intros Habs Hrel. apply normalizeOutput_inside; assumption. Qed.

Lemma normalizeOutput_project_relative_witness :
  normalizeOutput (Demo.host Demo.plainConfig []) "build/logs/junit.xml"
    "/ws" "packages/app"
  = "{projectRoot}/build/logs/junit.xml".
Proof.
  apply (normalizeOutput_project_relative (Demo.host Demo.plainConfig [])
           ["build"; "logs"; "junit.xml"] "/ws" "packages/app");
    reflexivity.
Defined.

Lemma fold_left_normalizeStep_app (b : bool) (l1 l2 acc : list string) :
  fold_left (Path.normalizeStep b) (l1 ++ l2) acc
  = fold_left (Path.normalizeStep b) l2
      (fold_left (Path.normalizeStep b) l1 acc).
Proof. apply fold_left_app. Qed.

Lemma normalizeStep_dotdot_pops (b : bool) (p : string) (acc : list string) :
  plainSegment p = true →
  Path.normalizeStep b (p :: acc) ".." = acc.
Proof.
  intros Hp. apply plainSegment_inv in Hp as (_ & _ & Hdd & _).
  unfold Path.normalizeStep. simpl. rewrite Hdd. reflexivity.
Qed.

Lemma fold_normalizeStep_dotdot (b : bool) (p : string)
    (l acc : list string) :
  plainSegment p = true →
  fold_left (Path.normalizeStep b) ((".." :: l)) (p :: acc)
  = fold_left (Path.normalizeStep b) l acc.
Proof.
  intros Hp. cbn [fold_left].
  rewrite (normalizeStep_dotdot_pops b p acc Hp). reflexivity.
Qed.

(** Resolving [../rel] against a directory replaces its last segment. *)
Lemma resolve_rooted_parent (cwd : string) (segs rel : list string)
    (p : string) :
  Forall (λ s, plainSegment s = true) segs →
  plainSegment p = true →
  rel ≠ [] →
  Forall (λ s, plainSegment s = true) rel →
  Path.resolve cwd [rooted (segs ++ [p]); Js.join "/" (".." :: rel)]
  = rooted (segs ++ rel).
Proof.
  intros Hsegs Hp Hne Hrel.
  assert (Hall : Forall (λ s, plainSegment s = true) (segs ++ [p]))
    by (apply Forall_app; split; [exact Hsegs|repeat constructor; exact Hp]).
  destruct rel as [|q rel]; [contradiction|].
  remember (Js.join "/" (".." :: q :: rel)) as up eqn:Hup.
  remember (Js.join "/" (q :: rel)) as below eqn:Hbelow.
  assert (Hhead : up = String "." (String "." (String "/" below)))
    by (subst up below; reflexivity).
  unfold Path.resolve. simpl. rewrite Hhead. simpl. rewrite <- Hhead.
  clear Hhead Hbelow below. subst up.
  unfold Path.normalizeString.
  change (rooted (segs ++ [p]) +:+ "/" +:+ Js.join "/" (".." :: q :: rel)
          +:+ "/" +:+ "")
    with (rooted (segs ++ [p])
          +:+ String "/" (Js.join "/" (".." :: q :: rel) +:+ String "/" "")).
  rewrite !split_app_sep. change (Js.split "/" "") with [""].
  rewrite (split_join "/" (".." :: q :: rel)); [|discriminate|].
  2:{ constructor; [reflexivity|]. apply plain_no_slash. exact Hrel. }
  unfold Path.normalizeSegments.
  rewrite fold_left_normalizeStep_app.
  destruct (split_join_plain (segs ++ [p]) Hall) as [Hsplit Hfilter].
  rewrite (fold_normalizeStep_plain false (Js.split "/" (rooted (segs ++ [p])))).
  2:{ rewrite split_rooted. constructor; [left; reflexivity|exact Hsplit]. }
  rewrite split_rooted.
  rewrite filter_cons_False by (intros Hx; apply Hx; reflexivity).
  rewrite Hfilter, app_nil_r, rev_app_distr. simpl app.
  change (".." :: q :: rel ++ [""]) with (".." :: ((q :: rel) ++ [""])).
  rewrite (fold_normalizeStep_dotdot false p ((q :: rel) ++ [""]) (rev segs) Hp).
  rewrite (fold_normalizeStep_plain false ((q :: rel) ++ [""])).
  2:{ apply Forall_app. split; [|repeat constructor].
      eapply Forall_impl; [exact Hrel|]. intros s Hs. right. exact Hs. }
  rewrite filter_app, (filter_plain (q :: rel) Hrel).
  rewrite filter_cons_False by (intros Hx; apply Hx; reflexivity).
  rewrite filter_nil, app_nil_r, rev_app_distr, !rev_involutive.
  reflexivity.
Qed.

Lemma stripCommon_app (common from to : list string) :
  Path.stripCommon (common ++ from) (common ++ to)
  = Path.stripCommon from to.
Proof.
  induction common as [|x common IH]; [reflexivity|].
  simpl. rewrite String.eqb_refl. exact IH.
Qed.

(** The relative path from a directory to a path below its parent. *)
Lemma relative_rooted_sibling (cwd : string) (segs rel : list string)
    (p q : string) :
  Forall (λ s, plainSegment s = true) segs →
  plainSegment p = true →
  Forall (λ s, plainSegment s = true) (q :: rel) →
  p ≠ q →
  Path.relative cwd (rooted (segs ++ [p])) (rooted (segs ++ q :: rel))
  = Js.join "/" (".." :: q :: rel).
Proof.
  intros Hsegs Hp Hrel Hpq.
  assert (Hfrom : Forall (λ s, plainSegment s = true) (segs ++ [p]))
    by (apply Forall_app; split; [exact Hsegs|repeat constructor; exact Hp]).
  assert (Hto : Forall (λ s, plainSegment s = true) (segs ++ q :: rel))
    by (apply Forall_app; split; assumption).
  assert (Hdiff : rooted (segs ++ [p]) ≠ rooted (segs ++ q :: rel)).
  { intros Heq. apply (f_equal Path.segments) in Heq.
    rewrite (segments_rooted _ Hfrom), (segments_rooted _ Hto) in Heq.
    apply app_inv_head in Heq. injection Heq as Heq _. contradiction. }
  unfold Path.relative.
  destruct (String.eqb_spec (rooted (segs ++ [p])) (rooted (segs ++ q :: rel)));
    [contradiction|].
  rewrite (resolve_rooted_id cwd _ Hfrom), (resolve_rooted_id cwd _ Hto).
  destruct (String.eqb_spec (rooted (segs ++ [p])) (rooted (segs ++ q :: rel)));
    [contradiction|].
  rewrite (segments_rooted _ Hfrom), (segments_rooted _ Hto).
  rewrite stripCommon_app. simpl.
  destruct (String.eqb_spec p q); [contradiction|]. reflexivity.
Qed.

Lemma joinPathFragments_token (token : string) (rel : list string) :
  portableSegment token = true →
  Devkit.hasDriveLetter token = false →
  rel ≠ [] →
  forallb portableSegment rel = true →
  Devkit.joinPathFragments [token; Js.join "/" rel]
  = Js.join "/" (token :: rel).
Proof.
  intros Htoken Hdrive Hne Hrel.
  destruct (portable_plain rel Hrel) as [Hplain Hback].
  unfold portableSegment in Htoken.
  apply andb_true_iff in Htoken as [Htplain Htback].
  apply negb_true_iff in Htback.
  destruct (join_plain_head rel Hne Hplain) as (a & r & Hj & _).
  assert (Htne : token ≠ "")
    by (intros ->; discriminate Htplain).
  unfold Devkit.joinPathFragments, Path.join.
  rewrite filter_cons_True by exact Htne.
  rewrite filter_cons_True by (rewrite Hj; discriminate).
  rewrite filter_nil.
  assert (Hsame : Js.join "/" [token; Js.join "/" rel]
                  = Js.join "/" (token :: rel))
    by (destruct rel; [contradiction|reflexivity]).
  rewrite Hsame.
  rewrite (normalize_plain (token :: rel));
    [|discriminate|constructor; assumption].
  apply normalizePath_id.
  - apply hasDriveLetter_join. exact Hdrive.
  - apply (join_no_backslash (token :: rel)). constructor; assumption.
Qed.

(** X3: an output path that goes up one directory from the project root
    and down into another one is normalized to the workspace token followed
    by its path from the workspace root. *)
Theorem normalizeOutput_sibling_directory (h : Host)
    (workspace parent rel : list string) (p q : string) :
  Forall (λ s, plainSegment s = true) workspace →
  forallb portableSegment (parent ++ [p]) = true →
  forallb portableSegment (q :: rel) = true →
  p ≠ q →
  normalizeOutput h (Js.join "/" (".." :: q :: rel)) (rooted workspace)
    (Js.join "/" (parent ++ [p]))
  = "{workspaceRoot}/" +:+ Js.join "/" (parent ++ q :: rel).
Proof.
  intros Hws Hproject Hrel Hpq.
  destruct (portable_plain _ Hproject) as [Hpplain Hpback].
  destruct (portable_plain _ Hrel) as [Hrplain Hrback].
  apply Forall_app in Hpplain as [Hparent Hp].
  apply Forall_cons in Hp as [Hp _].
  assert (Hparent' : forallb portableSegment parent = true).
  { rewrite forallb_app in Hproject. apply andb_true_iff in Hproject. tauto. }
  assert (Hbelow : Forall (λ s, plainSegment s = true) (workspace ++ parent))
    by (apply Forall_app; split; assumption).
  unfold normalizeOutput.
  rewrite (resolve_rooted_append _ workspace (parent ++ [p]) Hws).
  2:{ destruct parent; discriminate. }
  2:{ apply Forall_app. split; [exact Hparent|repeat constructor; exact Hp]. }
  rewrite (app_assoc workspace parent [p]).
  rewrite (resolve_rooted_parent _ (workspace ++ parent) (q :: rel) p
             Hbelow Hp); [|discriminate|exact Hrplain].
  rewrite (relative_rooted_sibling _ (workspace ++ parent) rel p q
             Hbelow Hp Hrplain Hpq).
  rewrite (normalizePath_id (Js.join "/" (".." :: q :: rel))).
  2:{ reflexivity. }
  2:{ apply (join_no_backslash (".." :: q :: rel)).
      constructor; [reflexivity|exact Hrback]. }
  change (Js.startsWith (Js.join "/" (".." :: q :: rel)) "..") with true.
  cbv iota.
  rewrite <- (app_assoc workspace parent (q :: rel)).
  rewrite (relative_rooted_append _ workspace (parent ++ q :: rel) Hws).
  2:{ destruct parent; discriminate. }
  2:{ apply Forall_app. split; assumption. }
  rewrite (joinPathFragments_token "{workspaceRoot}" (parent ++ q :: rel)).
  - destruct parent; reflexivity.
  - reflexivity.
  - reflexivity.
  - destruct parent; discriminate.
  - rewrite forallb_app, Hparent', Hrel. reflexivity.
Qed.

Lemma normalizeOutput_sibling_directory_witness :
  normalizeOutput (Demo.host Demo.plainConfig []) "../shared/coverage"
    "/ws" "packages/app"
  = "{workspaceRoot}/packages/shared/coverage".
Proof.
  apply (normalizeOutput_sibling_directory (Demo.host Demo.plainConfig [])
           ["ws"] ["packages"] ["coverage"] "app" "shared").
  - repeat constructor.
  - reflexivity.
  - reflexivity.
  - discriminate.
Defined.

(** ** Subfolders of outputs *)

Lemma toChars_app (a b : string) :
  Path.toChars (a +:+ b) = Path.toChars a ++ Path.toChars b.
Proof.
  induction a as [|x a IH]; [reflexivity|]. simpl. rewrite <- IH. reflexivity.
Qed.

Lemma ofChars_toChars (s : string) : Path.ofChars (Path.toChars s) = s.
Proof. apply string_of_list_ascii_of_string. Qed.

Lemma toChars_no_slash (s : string) :
  Js.includesChar "/" s = false →
  Forall (λ a, Path.notSlash a = true) (Path.toChars s).
Proof.
  induction s as [|a s IH]; simpl; [constructor|].
  intros Hno. apply orb_false_iff in Hno as [Ha Hs].
  constructor; [|apply IH; exact Hs].
  unfold Path.notSlash, Path.isSlash. rewrite Ha. reflexivity.
Qed.

Lemma takeWhile_app_stop {A} (p : A → bool) (l1 l2 : list A) (x : A) :
  Forall (λ a, p a = true) l1 → p x = false →
  Path.takeWhile p (l1 ++ x :: l2) = l1
  ∧ Path.dropWhile p (l1 ++ x :: l2) = x :: l2.
Proof.
  intros Hall Hx. induction Hall as [|a l1 Ha _ [IH1 IH2]]; simpl.
  - rewrite Hx. split; reflexivity.
  - rewrite Ha, IH1, IH2. split; reflexivity.
Qed.

Lemma takeWhile_all {A} (p : A → bool) (l : list A) :
  Forall (λ a, p a = true) l →
  Path.takeWhile p l = l ∧ Path.dropWhile p l = [].
Proof.
  induction 1 as [|a l Ha _ [IH1 IH2]]; simpl; [split; reflexivity|].
  rewrite Ha, IH1, IH2. split; reflexivity.
Qed.

Lemma dropWhile_slash_plain (b : string) (rest : list ascii) :
  plainSegment b = true →
  Path.dropWhile Path.isSlash (rev (Path.toChars b) ++ rest)
  = rev (Path.toChars b) ++ rest.
Proof.
  intros Hb. apply plainSegment_inv in Hb as (Hne & _ & _ & Hslash).
  pose proof (List.Forall_rev (toChars_no_slash b Hslash)) as Hall.
  destruct (rev (Path.toChars b)) as [|a l] eqn:Hrev.
  - apply (f_equal (@rev ascii)) in Hrev. rewrite rev_involutive in Hrev.
    destruct b; [discriminate Hne|discriminate Hrev].
  - apply Forall_cons in Hall as [Ha _]. simpl.
    unfold Path.notSlash in Ha. apply negb_true_iff in Ha. rewrite Ha.
    reflexivity.
Qed.

(** [path.parse] of a file name alone. *)
Lemma parse_name (b : string) :
  plainSegment b = true →
  Path.dir (Path.parse b) = "" ∧ Path.base (Path.parse b) = b.
Proof.
  intros Hb. pose proof Hb as Hinv.
  apply plainSegment_inv in Hinv as (Hne & _ & _ & Hslash).
  unfold Path.parse. destruct (Path.toChars b) as [|c tl] eqn:Hchars.
  - destruct b; [discriminate Hne|discriminate Hchars].
  - pose proof (toChars_no_slash b Hslash) as Hall. rewrite Hchars in Hall.
    pose proof Hall as Hc. apply Forall_cons in Hc as [Hc _].
    unfold Path.notSlash in Hc. apply negb_true_iff in Hc. rewrite Hc.
    pose proof (dropWhile_slash_plain b [] Hb) as Hdrop.
    rewrite Hchars, app_nil_r in Hdrop. rewrite Hdrop.
    destruct (takeWhile_all Path.notSlash (rev (c :: tl))
                (List.Forall_rev Hall)) as [-> ->].
    cbn [Path.dir Path.base]. rewrite rev_involutive, <- Hchars.
    split; [reflexivity|apply ofChars_toChars].
Qed.

(** [path.parse] of a relative path that ends with a file name. *)
Lemma parse_below (d b : string) :
  Path.isAbsolute d = false → d ≠ "" →
  plainSegment b = true →
  Path.parse (d +:+ String "/" b)
  = {| Path.dir := d; Path.base := b;
       Path.ext := Path.ext (Path.parse b) |}.
Proof.
  intros Habs Hd Hb. pose proof Hb as Hinv.
  apply plainSegment_inv in Hinv as (Hne & _ & _ & Hslash).
  pose proof (List.Forall_rev (toChars_no_slash b Hslash)) as Hall.
  (* the extension of the name alone *)
  assert (Hext : Path.ext (Path.parse b)
                 = Path.ofChars (Path.extOf true (Path.toChars b))).
  { unfold Path.parse. destruct (Path.toChars b) as [|c tl] eqn:Hchars.
    - destruct b; [discriminate Hne|discriminate Hchars].
    - pose proof (toChars_no_slash b Hslash) as Hfw. rewrite Hchars in Hfw.
      pose proof Hfw as Hc. apply Forall_cons in Hc as [Hc _].
      unfold Path.notSlash in Hc. apply negb_true_iff in Hc. rewrite Hc.
      pose proof (dropWhile_slash_plain b [] Hb) as Hdrop.
      rewrite Hchars, app_nil_r in Hdrop. rewrite Hdrop.
      destruct (takeWhile_all Path.notSlash (rev (c :: tl))
                  (List.Forall_rev Hfw)) as [-> ->].
      cbn [Path.ext negb]. rewrite rev_involutive. reflexivity. }
  rewrite Hext. destruct d as [|c d]; [contradiction|].
  simpl in Habs.
  assert (Hchars : Path.toChars (String c d +:+ String "/" b)
                   = c :: (Path.toChars d ++ "/"%char :: Path.toChars b))
    by (rewrite toChars_app; reflexivity).
  assert (Hrev : rev (c :: (Path.toChars d ++ "/"%char :: Path.toChars b))
                 = rev (Path.toChars b)
                   ++ "/"%char :: (rev (Path.toChars d) ++ [c])).
  { cbn [rev]. rewrite rev_app_distr. cbn [rev].
    rewrite <- !app_assoc. reflexivity. }
  unfold Path.parse. rewrite Hchars, Habs, Hrev.
  rewrite (dropWhile_slash_plain b _ Hb).
  destruct (takeWhile_app_stop Path.notSlash (rev (Path.toChars b))
              (rev (Path.toChars d) ++ [c]) "/"%char Hall eq_refl)
    as [-> ->].
  cbn [app]. rewrite rev_involutive, ofChars_toChars.
  rewrite rev_app_distr, rev_involutive. cbn [rev app].
  change (Path.ofChars (c :: Path.toChars d))
    with (String c (Path.ofChars (Path.toChars d))).
  rewrite ofChars_toChars. reflexivity.
Qed.

Lemma append_assoc (a b c : string) : (a +:+ b) +:+ c = a +:+ (b +:+ c).
Proof.
  induction a as [|x a IH]; [reflexivity|].
  change (String x ((a +:+ b) +:+ c) = String x (a +:+ (b +:+ c))).
  f_equal. exact IH.
Qed.

(** Joining a joined path with more segments joins all the segments. *)
Lemma join_join (front back : list string) :
  front ≠ [] →
  Js.join "/" (Js.join "/" front :: back) = Js.join "/" (front ++ back).
Proof.
  induction front as [|x front IH]; [contradiction|]. intros _.
  destruct front as [|y front].
  - reflexivity.
  - destruct back as [|z back]; [rewrite app_nil_r; reflexivity|].
    specialize (IH ltac:(discriminate)).
    rewrite (join_cons "/" (Js.join "/" (y :: front)) z back) in IH.
    rewrite (join_cons "/" (Js.join "/" (x :: y :: front)) z back).
    cbn [app] in IH |- *.
    rewrite (join_cons "/" x y (front ++ z :: back)), <- IH.
    rewrite (join_cons "/" x y front), append_assoc. reflexivity.
Qed.

Lemma addSubfolderToOutput_position_lemma (dirs : list string)
    (file sub : string) :
  Forall (λ s, plainSegment s = true) dirs →
  plainSegment file = true →
  plainSegment sub = true →
  addSubfolderToOutput (Js.join "/" (dirs ++ [file])) (Some sub)
  = Js.join "/"
      (dirs ++ (if String.eqb (Path.ext (Path.parse file)) ""
                then [file; sub] else [sub; file])).
Proof.
  intros Hdirs Hfile Hsub.
  assert (Htruthy : Js.truthy sub = true).
  { apply plainSegment_inv in Hsub as (Hne & _). unfold Js.truthy.
    rewrite Hne. reflexivity. }
  assert (Hall : Forall (λ s, plainSegment s = true) (dirs ++ [file]))
    by (apply Forall_app; split; [exact Hdirs|repeat constructor; exact Hfile]).
  unfold addSubfolderToOutput. rewrite Htruthy. cbn [negb].
  assert (Hparse : Path.parse (Js.join "/" (dirs ++ [file]))
                   = {| Path.dir := Js.join "/" dirs; Path.base := file;
                        Path.ext := Path.ext (Path.parse file) |}).
  { destruct dirs as [|d dirs].
    - destruct (parse_name file Hfile) as [Hdir Hbase].
      cbn [app Js.join String.concat].
      destruct (Path.parse file) as [dr bs ex]. simpl in *. subst.
      reflexivity.
    - assert (Hne : d :: dirs ≠ []) by discriminate.
      destruct (join_plain_head (d :: dirs) Hne Hdirs) as (a & r & Hj & Ha).
      rewrite <- (join_join (d :: dirs) [file] Hne).
      change (Js.join "/" [Js.join "/" (d :: dirs); file])
        with (Js.join "/" (d :: dirs) +:+ String "/" file).
      apply parse_below; [rewrite Hj; exact Ha|rewrite Hj; discriminate|
                          exact Hfile]. }
  rewrite Hparse. cbn [Path.ext Path.dir Path.base].
  destruct (String.eqb (Path.ext (Path.parse file)) ""); cbn [negb].
  - (* no extension: the subfolder is appended *)
    assert (Hne : dirs ++ [file] ≠ []) by (destruct dirs; discriminate).
    destruct (join_plain_head _ Hne Hall) as (a & r & Hj & _).
    unfold Path.join.
    rewrite filter_cons_True by (rewrite Hj; discriminate).
    rewrite filter_cons_True
      by (intros ->; discriminate Hsub).
    rewrite filter_nil, (join_join (dirs ++ [file]) [sub] Hne).
    rewrite <- app_assoc. cbn [app].
    apply normalize_plain; [destruct dirs; discriminate|].
    apply Forall_app. split; [exact Hdirs|]. repeat constructor; assumption.
  - (* an extension: the subfolder comes before the file name *)
    assert (Hplain3 : Forall (λ s, plainSegment s = true)
                        (dirs ++ [sub; file])).
    { apply Forall_app. split; [exact Hdirs|]. repeat constructor; assumption. }
    unfold Path.join. destruct dirs as [|d dirs].
    + cbn [Js.join String.concat app].
      rewrite filter_cons_False by (intros Hx; apply Hx; reflexivity).
      rewrite filter_cons_True by (intros ->; discriminate Hsub).
      rewrite filter_cons_True by (intros ->; discriminate Hfile).
      rewrite filter_nil.
      apply (normalize_plain [sub; file]); [discriminate|exact Hplain3].
    + assert (Hne : d :: dirs ≠ []) by discriminate.
      destruct (join_plain_head (d :: dirs) Hne Hdirs) as (a & r & Hj & _).
      rewrite filter_cons_True by (rewrite Hj; discriminate).
      rewrite filter_cons_True by (intros ->; discriminate Hsub).
      rewrite filter_cons_True by (intros ->; discriminate Hfile).
      rewrite filter_nil, (join_join (d :: dirs) [sub; file] Hne).
      apply normalize_plain; [discriminate|exact Hplain3].
Qed.

(** X4: for an output path of ordinary segments and a subfolder, the
    subfolder is inserted before the file name when the name has an
    extension, and appended after it otherwise. *)
Theorem addSubfolderToOutput_position (dirs : list string)
    (file sub : string) :
  Forall (λ s, plainSegment s = true) dirs →
  plainSegment file = true →
  plainSegment sub = true →
  addSubfolderToOutput (Js.join "/" (dirs ++ [file])) (Some sub)
  = Js.join "/"
      (dirs ++ (if String.eqb (Path.ext (Path.parse file)) ""
                then [file; sub] else [sub; file])).
Proof. apply addSubfolderToOutput_position_lemma. Qed.

Lemma addSubfolderToOutput_position_witness :
  addSubfolderToOutput "custom/out.cache" (Some "tests-FooTest-php")
  = "custom/tests-FooTest-php/out.cache"
  ∧ addSubfolderToOutput ".phpunit.cache/test-results"
      (Some "tests-FooTest-php")
    = ".phpunit.cache/test-results/tests-FooTest-php".
Proof.
  split.
  - apply (addSubfolderToOutput_position ["custom"] "out.cache"
             "tests-FooTest-php"); repeat constructor.
  - apply (addSubfolderToOutput_position [".phpunit.cache"] "test-results"
             "tests-FooTest-php"); repeat constructor.
Defined.

(** ** More on the outputs of a target *)

(** X5: the outputs of a target start with the normalized test output; the
    normalized coverage output follows when a non-empty coverage directory
    is declared and gives another path; nothing else is listed. *)
Theorem getTargetOutputs_shape (h : Host) (testOutput : string)
    (coverageOutput : option string) (workspaceRoot projectRoot : string)
    (subFolder : option string) :
  let test :=
    normalizeOutput h (addSubfolderToOutput testOutput subFolder)
      workspaceRoot projectRoot in
  getTargetOutputs h testOutput coverageOutput workspaceRoot projectRoot
    subFolder
  = match coverageOutput with
    | Some d =>
        let cov :=
          normalizeOutput h (addSubfolderToOutput d subFolder) workspaceRoot
            projectRoot in
        if Js.truthy d && negb (String.eqb cov test) then [test; cov]
        else [test]
    | None => [test]
    end.
Proof.
  cbv zeta. unfold getTargetOutputs, Js.setAdd.
  rewrite bool_decide_eq_false_2 by (apply not_elem_of_nil).
  cbn [app]. destruct coverageOutput as [d|]; [|reflexivity].
  destruct (Js.truthy d); [|reflexivity]. cbn [andb].
  destruct (String.eqb_spec
              (normalizeOutput h (addSubfolderToOutput d subFolder)
                 workspaceRoot projectRoot)
              (normalizeOutput h (addSubfolderToOutput testOutput subFolder)
                 workspaceRoot projectRoot)) as [Heq|Hne]; cbn [negb].
  - rewrite bool_decide_eq_true_2; [reflexivity|]. rewrite Heq. left.
  - rewrite bool_decide_eq_false_2; [reflexivity|].
    rewrite list_elem_of_singleton. exact Hne.
Qed.

(** ** More on the target builder *)

#[local] Set Warnings "-clear-no-such-hyp".

Section BuilderNames.

Variable h : Host.
Variables (ci : string) (base : TargetConfiguration) (testOutput : string)
  (coverageOutput : option string) (context : CreateNodesContext)
  (projectRoot : string).

Lemma fold_addTestFileTarget_dom (files : list string) (st : CiState) :
  dom
    (ciTargets
       (fold_left
          (addTestFileTarget h ci base testOutput coverageOutput context
             projectRoot)
          files st))
  = dom (ciTargets st)
    ∪ list_to_set (perFileTargetName h ci projectRoot <$> files).
Proof.
  revert st. induction files as [|f files IH]; intros st; simpl.
  - set_solver.
  - rewrite IH. unfold addTestFileTarget. simpl. rewrite dom_insert_L.
    set_solver.
Qed.

(** As [fold_addTestFileTarget_lookup], with the name of the target. *)
Lemma fold_addTestFileTarget_named (P : string → TargetConfiguration → Prop)
    (files : list string) (st : CiState) :
  (∀ name tc, ciTargets st !! name = Some tc → P name tc) →
  (∀ f, f ∈ files →
        P (perFileTargetName h ci projectRoot f)
          (perFileTarget h base testOutput coverageOutput context
             projectRoot f)) →
  ∀ name tc,
    ciTargets
      (fold_left
         (addTestFileTarget h ci base testOutput coverageOutput context
            projectRoot)
         files st) !! name = Some tc →
    P name tc.
Proof.
  revert st. induction files as [|f files IH]; intros st Hst Hfiles;
    [exact Hst|].
  simpl. apply IH.
  - intros name tc. unfold addTestFileTarget. simpl.
    rewrite lookup_insert. case_decide as Hname.
    + intros [= <-]. subst name. apply Hfiles. left.
    + apply Hst.
  - intros f' Hf'. apply Hfiles. right. exact Hf'.
Qed.

End BuilderNames.

Lemma truthy_nonempty (s : string) : s ≠ "" → Js.truthy s = true.
Proof.
  intros Hne. unfold Js.truthy.
  destruct (String.eqb_spec s ""); [contradiction|reflexivity].
Qed.

(** X6: with a non-empty CI target name, the builder returns the base
    target, the aggregator and one target per discovered test file, and no
    other; the aggregator depends on the per-file targets in the order of
    discovery, each with [projects: 'self'] and [params: 'forward'], and
    the group "Test (CI)" lists the same names followed by the aggregator. *)
Theorem buildPhpUnitTargets_ci_structure (h : Host)
    (configFilePath projectRoot : string) (opts : NormalizedOptions)
    (context : CreateNodesContext) (content : string)
    (cfg : PhpUnitConfiguration) (ci : string) :
  readFileSync h (Path.join [workspaceRoot context; configFilePath])
  = Ok content →
  xmlParse h content = Ok cfg →
  ciTargetName opts = Some ci →
  ci ≠ "" →
  let base :=
    cachedTargetConfig (getNamedInputs h projectRoot context)
      (getTargetOutputs h (getTestOutput cfg) (getCoverageOutput cfg)
         (workspaceRoot context) projectRoot None) in
  let names :=
    perFileTargetName h ci projectRoot
    <$> discovered h context (testDirOf projectRoot cfg) in
  ∃ t : PhpUnitTargets,
    buildPhpUnitTargets h configFilePath projectRoot opts context = Ok t
    ∧ dom (targets t) = {[ targetName opts; ci ]} ∪ list_to_set names
    ∧ targets t !! ci
      = Some (aggregatorTarget opts base (dependencyOn <$> names))
    ∧ projectMetadata t
      = Some {| targetGroups := {[ "Test (CI)" := names ++ [ci] ]} |}.
Proof.
  intros Hread Hparse Hci Hne base names.
  rewrite (buildPhpUnitTargets_parsed h _ _ _ _ _ _ Hread Hparse).
  cbv zeta. rewrite Hci. cbn [Js.truthyOpt Js.nullish].
  rewrite (truthy_nonempty ci Hne).
  eexists. split; [reflexivity|]. cbn [targets projectMetadata].
  match goal with
  | |- context [fold_left ?cb ?fs ?st] =>
      destruct (fold_addTestFileTarget_group h ci base (getTestOutput cfg)
                  (getCoverageOutput cfg) context projectRoot fs st)
        as [Hgroup Hdeps];
      pose proof (fold_addTestFileTarget_dom h ci base (getTestOutput cfg)
                    (getCoverageOutput cfg) context projectRoot fs st)
        as Hdom
  end.
  cbv zeta in Hgroup, Hdeps. fold base names in Hgroup, Hdeps, Hdom |- *.
  rewrite Hgroup, Hdeps. cbn [ciTargetGroup ciDependsOn app].
  split; [|split; [apply lookup_insert_eq|reflexivity]].
  rewrite dom_insert_L, Hdom. cbn [ciTargets].
  rewrite dom_insert_L, dom_empty_L. set_solver.
Qed.

Lemma buildPhpUnitTargets_ci_structure_witness :
  ∃ t : PhpUnitTargets,
    buildPhpUnitTargets (Demo.host Demo.plainConfig Demo.testFiles)
      "proj/phpunit.xml" "proj"
      {| targetName := "unit"; ciTargetName := Some "unit-ci" |}
      Demo.context
    = Ok t
    ∧ dom (targets t)
      = {[ "unit"; "unit-ci" ]}
        ∪ list_to_set
            (perFileTargetName (Demo.host Demo.plainConfig Demo.testFiles)
               "unit-ci" "proj"
             <$> discovered (Demo.host Demo.plainConfig Demo.testFiles)
                   Demo.context (testDirOf "proj" Demo.plainConfig)).
Proof.
  destruct (buildPhpUnitTargets_ci_structure
              (Demo.host Demo.plainConfig Demo.testFiles)
              "proj/phpunit.xml" "proj"
              {| targetName := "unit"; ciTargetName := Some "unit-ci" |}
              Demo.context "<phpunit/>" Demo.plainConfig "unit-ci"
              eq_refl eq_refl eq_refl ltac:(discriminate))
    as (t & Hbuild & Hdom & _).
  exists t. split; [exact Hbuild|exact Hdom].
Defined.

(** X7: every target the builder returns, the base target, the aggregator
    and the targets of the test files alike, is cacheable, is not run in
    parallel, lists the technology [php] and has the same inputs: the
    production inputs of the dependencies when the workspace names a
    "production" input, their default inputs otherwise. *)
Theorem every_target_cacheable_same_inputs (h : Host)
    (configFilePath projectRoot : string) (opts : NormalizedOptions)
    (context : CreateNodesContext) (content : string)
    (cfg : PhpUnitConfiguration) :
  readFileSync h (Path.join [workspaceRoot context; configFilePath])
  = Ok content →
  xmlParse h content = Ok cfg →
  ∃ t : PhpUnitTargets,
    buildPhpUnitTargets h configFilePath projectRoot opts context = Ok t
    ∧ ∀ (name : string) (tc : TargetConfiguration),
        targets t !! name = Some tc →
        cache tc = Some true
        ∧ parallelism tc = Some false
        ∧ inputs tc
          = Some (if bool_decide
                       ("production" ∈ getNamedInputs h projectRoot context)
                  then ["default"; "^production"]
                  else ["default"; "^default"])
        ∧ (technologies <$> metadata tc) = Some ["php"].
Proof.
  intros Hread Hparse.
  rewrite (buildPhpUnitTargets_parsed h _ _ _ _ _ _ Hread Hparse).
  cbv zeta.
  set (base := cachedTargetConfig _ _).
  set (Good := λ tc : TargetConfiguration,
         cache tc = Some true
         ∧ parallelism tc = Some false
         ∧ inputs tc
           = Some (if bool_decide
                        ("production" ∈ getNamedInputs h projectRoot context)
                   then ["default"; "^production"]
                   else ["default"; "^default"])
         ∧ (technologies <$> metadata tc) = Some ["php"]).
  assert (Hstart : ∀ name tc,
            (<[targetName opts := base]> ∅ : gmap string TargetConfiguration)
              !! name = Some tc → Good tc).
  { intros name tc. rewrite lookup_insert. case_decide.
    - intros [= <-]. repeat split.
    - rewrite lookup_empty. discriminate. }
  destruct (Js.truthyOpt (ciTargetName opts)).
  - eexists. split; [reflexivity|]. cbn [targets].
    intros name tc. rewrite lookup_insert. case_decide.
    + intros [= <-]. repeat split.
    + apply (fold_addTestFileTarget_lookup h _ base _ _ context projectRoot
               Good); [exact Hstart|].
      intros f _. repeat split.
  - eexists. split; [reflexivity|exact Hstart].
Qed.

Lemma every_target_cacheable_same_inputs_witness :
  ∃ t : PhpUnitTargets,
    buildPhpUnitTargets (Demo.host Demo.coverageConfig Demo.testFiles)
      "proj/phpunit.xml" "proj" Demo.defaultOptions Demo.context
    = Ok t
    ∧ ∀ (name : string) (tc : TargetConfiguration),
        targets t !! name = Some tc →
        cache tc = Some true ∧ inputs tc = Some ["default"; "^default"].
Proof.
  destruct (every_target_cacheable_same_inputs
              (Demo.host Demo.coverageConfig Demo.testFiles)
              "proj/phpunit.xml" "proj" Demo.defaultOptions Demo.context
              "<phpunit/>" Demo.coverageConfig eq_refl eq_refl)
    as (t & Hbuild & Hall).
  exists t. split; [exact Hbuild|].
  intros name tc Hlook. destruct (Hall name tc Hlook) as (Hc & _ & Hi & _).
  split; [exact Hc|exact Hi].
Defined.

(** X8: when the CI target name equals the target name, the aggregator
    takes the place of the base target: the name leads to a [nx:noop]
    target without a command, and no target of the result runs the whole
    test suite with [./vendor/bin/phpunit]. *)
Theorem same_names_replace_base_target (h : Host)
    (configFilePath projectRoot : string) (opts : NormalizedOptions)
    (context : CreateNodesContext) (content : string)
    (cfg : PhpUnitConfiguration) :
  readFileSync h (Path.join [workspaceRoot context; configFilePath])
  = Ok content →
  xmlParse h content = Ok cfg →
  ciTargetName opts = Some (targetName opts) →
  targetName opts ≠ "" →
  ∃ (t : PhpUnitTargets) (agg : TargetConfiguration),
    buildPhpUnitTargets h configFilePath projectRoot opts context = Ok t
    ∧ targets t !! targetName opts = Some agg
    ∧ executor agg = Some "nx:noop"
    ∧ command agg = None
    ∧ ∀ (name : string) (tc : TargetConfiguration),
        targets t !! name = Some tc →
        command tc ≠ Some "./vendor/bin/phpunit".
Proof.
  intros Hread Hparse Hci Hne.
  rewrite (buildPhpUnitTargets_parsed h _ _ _ _ _ _ Hread Hparse).
  cbv zeta. rewrite Hci. cbn [Js.truthyOpt Js.nullish].
  rewrite (truthy_nonempty _ Hne).
  set (base := cachedTargetConfig _ _).
  eexists _, _. split; [reflexivity|]. cbn [targets].
  split; [apply lookup_insert_eq|]. split; [reflexivity|].
  split; [reflexivity|].
  intros name tc. rewrite lookup_insert. case_decide as Hname.
  - intros [= <-]. discriminate.
  - intros Hlook.
    assert (Hgoal : name = targetName opts
                    ∨ command tc ≠ Some "./vendor/bin/phpunit").
    { revert Hlook.
      apply (fold_addTestFileTarget_named h (targetName opts) base
               (getTestOutput cfg) (getCoverageOutput cfg) context
               projectRoot
               (λ n c, n = targetName opts
                       ∨ command c ≠ Some "./vendor/bin/phpunit")).
      - intros n c. cbn [ciTargets]. rewrite lookup_insert. case_decide.
        + intros _. left. symmetry. assumption.
        + rewrite lookup_empty. discriminate.
      - intros f _. right. unfold perFileTarget. cbn [command].
        intros Heq. injection Heq as Heq. discriminate Heq. }
    destruct Hgoal as [Heq|Hcmd]; [|exact Hcmd].
    exfalso. apply Hname. symmetry. exact Heq.
Qed.

Lemma same_names_replace_base_target_witness :
  ∃ (t : PhpUnitTargets) (agg : TargetConfiguration),
    buildPhpUnitTargets (Demo.host Demo.plainConfig Demo.testFiles)
      "proj/phpunit.xml" "proj"
      {| targetName := "test"; ciTargetName := Some "test" |} Demo.context
    = Ok t
    ∧ targets t !! "test" = Some agg
    ∧ executor agg = Some "nx:noop"
    ∧ command agg = None.
Proof.
  destruct (same_names_replace_base_target
              (Demo.host Demo.plainConfig Demo.testFiles)
              "proj/phpunit.xml" "proj"
              {| targetName := "test"; ciTargetName := Some "test" |}
              Demo.context "<phpunit/>" Demo.plainConfig
              eq_refl eq_refl eq_refl ltac:(discriminate))
    as (t & agg & Hbuild & Hlook & Hexec & Hcmd & _).
  exists t, agg. repeat split; assumption.
Defined.

Lemma append_empty_r (s : string) : s +:+ "" = s.
Proof.
  induction s as [|a s IH]; [reflexivity|].
  change (String a (s +:+ "") = String a s). f_equal. exact IH.
Qed.

(** X9: the name of the target of a test file never equals the CI target
    name, so that the aggregator and the per-file targets do not overwrite
    each other, and two test files have the same target name exactly when
    they have the same normalized path relative to the project root. *)
Theorem perFileTargetName_separates (h : Host) (ci projectRoot f1 f2 : string) :
  perFileTargetName h ci projectRoot f1 ≠ ci
  ∧ (perFileTargetName h ci projectRoot f1
     = perFileTargetName h ci projectRoot f2
     ↔ relativeSpecFilePath h projectRoot f1
       = relativeSpecFilePath h projectRoot f2).
Proof.
  unfold perFileTargetName. split.
  - intros Heq. rewrite <- (append_empty_r ci) in Heq at 2.
    apply (inj (String.append ci)) in Heq. discriminate Heq.
  - split.
    + intros Heq. apply (inj (String.append ci)) in Heq.
      apply (inj (String.append "--")) in Heq. exact Heq.
    + intros ->. reflexivity.
Qed.

(** ** More on the memoization store *)

(** X10: when the store holds an entry under the hash of a project, the
    project is returned with the targets of that entry and the store is
    left as it is; the configuration file is not read. *)
Theorem createNodesInternal_store_hit (h : Host) (configFilePath : string)
    (o : PhpUnitPluginOptions) (context : CreateNodesContext)
    (targetsCache : Store) (siblingFiles : list string) (content : string)
    (nm : option string) (hit : PhpUnitTargets) :
  readdirSync h
    (Path.join [workspaceRoot context; Path.dirname configFilePath])
  = Ok siblingFiles →
  "composer.json" ∈ siblingFiles →
  readFileSync h
    (Path.join [workspaceRoot context; Path.dirname configFilePath;
                "composer.json"])
  = Ok content →
  jsonParse h content = Ok (JsonValue nm) →
  targetsCache !! hashKey h o context configFilePath = Some hit →
  createNodesInternal h configFilePath o context targetsCache
  = (Ok {| projectsOf :=
             Some {[ Path.dirname configFilePath
                     := projectOf configFilePath nm hit ]} |},
     targetsCache).
Proof.
  intros Hdir Hin Hread Hjson Hhit. unfold createNodesInternal.
  rewrite Hdir, (bool_decide_eq_true_2 _ Hin), Hread. simpl.
  rewrite Hjson. fold (hashKey h o context configFilePath).
  rewrite Hhit. reflexivity.
Qed.

Lemma createNodesInternal_store_hit_witness :
  let h := Demo.unparsable Demo.testFiles in
  buildPhpUnitTargets h "proj/phpunit.xml" "proj"
    (normalizeOptions emptyOptions) Demo.context
  = Err (XmlError "<phpunit/>")
  ∧ createNodesInternal h "proj/phpunit.xml" emptyOptions Demo.context
      {[ "proj#test#test-ci" := Demo.earlierEntry ]}
    = (Ok {| projectsOf :=
               Some {[ "proj" := projectOf "proj/phpunit.xml"
                                   (Some "acme/proj") Demo.earlierEntry ]} |},
       {[ "proj#test#test-ci" := Demo.earlierEntry ]}).
Proof.
  cbv zeta. split; [reflexivity|].
  apply (createNodesInternal_store_hit (Demo.unparsable Demo.testFiles)
           "proj/phpunit.xml" emptyOptions Demo.context
           {[ "proj#test#test-ci" := Demo.earlierEntry ]}
           ["composer.json"; "phpunit.xml"; "tests"] "{ name: acme/proj }"
           (Some "acme/proj") Demo.earlierEntry).
  - reflexivity.
  - left.
  - reflexivity.
  - reflexivity.
  - vm_compute. reflexivity.
Defined.

Lemma createNodesInternal_extends_store (h : Host) (configFilePath : string)
    (o : PhpUnitPluginOptions) (context : CreateNodesContext)
    (targetsCache : Store) :
  targetsCache
  ⊆ snd (createNodesInternal h configFilePath o context targetsCache).
Proof.
  unfold createNodesInternal.
  destruct (readdirSync h _) as [siblings|e]; [|reflexivity].
  destruct (negb _); [reflexivity|].
  destruct (bind _ _) as [composerJson|e]; [|reflexivity].
  destruct (targetsCache !! _) as [hit|] eqn:Hlook.
  - destruct composerJson; reflexivity.
  - destruct (buildPhpUnitTargets h _ _ _ _) as [built|e]; [|reflexivity].
    simpl. destruct composerJson; simpl; apply insert_subseteq; exact Hlook.
Qed.

(** X11: processing a configuration file never removes or changes an entry
    of the store: the store it hands back extends the one it was given. *)
Theorem createNodesInternal_store_grows (h : Host) (configFilePath : string)
    (o : PhpUnitPluginOptions) (context : CreateNodesContext)
    (targetsCache : Store) :
  targetsCache
  ⊆ snd (createNodesInternal h configFilePath o context targetsCache).
Proof. apply createNodesInternal_extends_store. Qed.

(** X12: when the store has no entry for a project and the builder fails,
    the error is handed on and nothing is stored. *)
Theorem createNodesInternal_build_error (h : Host) (configFilePath : string)
    (o : PhpUnitPluginOptions) (context : CreateNodesContext)
    (targetsCache : Store) (siblingFiles : list string) (content : string)
    (composerJson : ComposerJson) (e : error) :
  readdirSync h
    (Path.join [workspaceRoot context; Path.dirname configFilePath])
  = Ok siblingFiles →
  "composer.json" ∈ siblingFiles →
  readFileSync h
    (Path.join [workspaceRoot context; Path.dirname configFilePath;
                "composer.json"])
  = Ok content →
  jsonParse h content = Ok composerJson →
  targetsCache !! hashKey h o context configFilePath = None →
  buildPhpUnitTargets h configFilePath (Path.dirname configFilePath)
    (normalizeOptions o) context
  = Err e →
  createNodesInternal h configFilePath o context targetsCache
  = (Err e, targetsCache).
Proof.
  intros Hdir Hin Hread Hjson Hmiss Hbuild. unfold createNodesInternal.
  rewrite Hdir, (bool_decide_eq_true_2 _ Hin), Hread. simpl.
  rewrite Hjson. fold (hashKey h o context configFilePath).
  rewrite Hmiss, Hbuild. reflexivity.
Qed.

Lemma createNodesInternal_build_error_witness :
  createNodesInternal (Demo.unparsable Demo.testFiles) "proj/phpunit.xml"
    emptyOptions Demo.context ∅
  = (Err (XmlError "<phpunit/>"), ∅).
Proof.
  apply (createNodesInternal_build_error (Demo.unparsable Demo.testFiles)
           "proj/phpunit.xml" emptyOptions Demo.context ∅
           ["composer.json"; "phpunit.xml"; "tests"] "{ name: acme/proj }"
           (JsonValue (Some "acme/proj")) (XmlError "<phpunit/>")).
  - reflexivity.
  - left.
  - reflexivity.
  - reflexivity.
  - apply lookup_empty.
  - reflexivity.
Defined.

Section BatchStore.

Variable h : Host.
Variable o : PhpUnitPluginOptions.
Variable context : CreateNodesContext.

Lemma visitFile_store_grows (acc : Collected) (file : string) :
  store acc
  ⊆ store (visitFile (λ f, createNodesInternal h f o context) acc file).
Proof.
  pose proof (createNodesInternal_extends_store h file o context (store acc))
    as Hgrow.
  unfold visitFile.
  destruct (createNodesInternal h file o context (store acc))
    as [[value|e] s]; exact Hgrow.
Qed.

Lemma fold_visitFile_store_grows (files : list string) (acc : Collected) :
  store acc
  ⊆ store
      (fold_left (visitFile (λ f, createNodesInternal h f o context)) files
         acc).
Proof.
  revert acc. induction files as [|f files IH]; intros acc; [reflexivity|].
  simpl. etransitivity; [apply (visitFile_store_grows acc f)|apply IH].
Qed.

(** What a successful call returns is what the store then holds. *)
Lemma createNodesInternal_returns_stored (file : string) (s s' : Store)
    (r : CreateNodesResult) (m : gmap string ProjectConfiguration) :
  createNodesInternal h file o context s = (Ok r, s') →
  projectsOf r = Some m →
  ∃ nm entry,
    s' !! hashKey h o context file = Some entry
    ∧ m = {[ Path.dirname file := projectOf file nm entry ]}.
Proof.
  unfold createNodesInternal.
  destruct (readdirSync h _) as [siblings|e]; [|discriminate].
  destruct (negb _).
  { intros [= <- <-]. discriminate. }
  destruct (bind _ _) as [composerJson|e]; [|discriminate].
  fold (hashKey h o context file).
  destruct (s !! hashKey h o context file) as [hit|] eqn:Hlook.
  - destruct composerJson as [|nm]; [discriminate|].
    intros [= <- <-] [= <-]. exists nm, hit. split; [exact Hlook|reflexivity].
  - destruct (buildPhpUnitTargets h _ _ _ _) as [built|e]; [|discriminate].
    simpl. destruct composerJson as [|nm]; [discriminate|].
    intros [= <- <-] [= <-]. exists nm, built.
    split; [apply lookup_insert_eq|reflexivity].
Qed.

Lemma fold_visitFile_returns_stored (files : list string) (acc : Collected) :
  (∀ f r m, (f, r) ∈ results acc → projectsOf r = Some m →
            ∃ nm entry,
              store acc !! hashKey h o context f = Some entry
              ∧ m = {[ Path.dirname f := projectOf f nm entry ]}) →
  let c :=
    fold_left (visitFile (λ f, createNodesInternal h f o context)) files acc in
  ∀ f r m, (f, r) ∈ results c → projectsOf r = Some m →
           ∃ nm entry,
             store c !! hashKey h o context f = Some entry
             ∧ m = {[ Path.dirname f := projectOf f nm entry ]}.
Proof.
  revert acc. induction files as [|file files IH]; intros acc Hacc;
    [exact Hacc|].
  simpl. apply IH. clear IH.
  pose proof (visitFile_store_grows acc file) as Hgrow.
  intros f r m Hin Hm. unfold visitFile in *.
  destruct (createNodesInternal h file o context (store acc))
    as [[value|e] s] eqn:Hcall; cbn [store results] in *.
  - apply elem_of_app in Hin as [Hin|Hin].
    + destruct (Hacc f r m Hin Hm) as (nm & entry & Hlook & Heq).
      exists nm, entry. split; [|exact Heq].
      eapply lookup_weaken; [exact Hlook|exact Hgrow].
    + apply list_elem_of_singleton in Hin as [= -> ->].
      apply (createNodesInternal_returns_stored file (store acc) s value m
               Hcall Hm).
  - destruct (Hacc f r m Hin Hm) as (nm & entry & Hlook & Heq).
    exists nm, entry. split; [|exact Heq].
    eapply lookup_weaken; [exact Hlook|exact Hgrow].
Qed.

End BatchStore.

Lemma returned_outcome (c : Collected) : returned (outcome c) = results c.
Proof. unfold returned, outcome. destruct (failures c); reflexivity. Qed.

(** X13: a batch whose store file is missing or holds a store writes the
    file of its options and no other file of the data directory, and what
    it writes extends what that file held: no entry of an earlier run is
    dropped or changed. A batch whose store file cannot be read leaves the
    whole data directory as it was. *)
Theorem createNodesV2_store_grows (h : Host) (configFilePaths : list string)
    (o : option PhpUnitPluginOptions) (context : CreateNodesContext)
    (w : World) :
  let after := snd (createNodesV2 h configFilePaths o context w) in
  match readTargetsCache (cachePathOf h o) w with
  | Ok targetsCache =>
      ∃ written : Store,
        disk after !! cachePathOf h o = Some (JsonFile written)
        ∧ targetsCache ⊆ written
        ∧ delete (cachePathOf h o) (disk after)
          = delete (cachePathOf h o) (disk w)
  | Err _ => disk after = disk w
  end.
Proof.
  cbv zeta.
  destruct (readTargetsCache (cachePathOf h o) w) as [targetsCache|e]
    eqn:Hread.
  - rewrite (createNodesV2_readable h configFilePaths o context w
               targetsCache Hread).
    cbv zeta. unfold writeTargetsToCache. cbn [snd disk].
    eexists. split; [apply lookup_insert_eq|].
    split; [|apply delete_insert_eq].
    apply (fold_visitFile_store_grows h (Js.nullish o emptyOptions) context
             configFilePaths
             {| store := targetsCache;
                results := []; failures := []; steps := [] |}).
  - rewrite (createNodesV2_unreadable h configFilePaths o context w e Hread).
    reflexivity.
Qed.

(** X14: every project a batch hands back, in its result or in the partial
    results of its error, is keyed by the directory of its configuration
    file and carries the targets that the store written to disk holds under
    the hash of that file. *)
Theorem createNodesV2_returns_stored (h : Host)
    (configFilePaths : list string) (o : option PhpUnitPluginOptions)
    (context : CreateNodesContext) (w : World) (f : string)
    (r : CreateNodesResult) (m : gmap string ProjectConfiguration) :
  let run := createNodesV2 h configFilePaths o context w in
  (f, r) ∈ returned (fst run) →
  projectsOf r = Some m →
  ∃ (written : Store) (nm : option string) (entry : PhpUnitTargets),
    disk (snd run) !! cachePathOf h o = Some (JsonFile written)
    ∧ written !! hashKey h (Js.nullish o emptyOptions) context f
      = Some entry
    ∧ m = {[ Path.dirname f := projectOf f nm entry ]}.
Proof.
  cbv zeta.
  destruct (readTargetsCache (cachePathOf h o) w) as [targetsCache|e]
    eqn:Hread.
  2: { rewrite (createNodesV2_unreadable h configFilePaths o context w e
                  Hread).
       cbn [fst returned]. intros Hin. inversion Hin. }
  rewrite (createNodesV2_readable h configFilePaths o context w targetsCache
             Hread).
  cbv zeta. unfold writeTargetsToCache.
  cbn [fst snd disk]. rewrite returned_outcome. intros Hin Hm.
  destruct (fold_visitFile_returns_stored h (Js.nullish o emptyOptions)
              context configFilePaths
              {| store := targetsCache;
                 results := []; failures := []; steps := [] |})
    with (f := f) (r := r) (m := m) as (nm & entry & Hlook & Heq).
  - intros f' r' m' Hnil. cbn [results] in Hnil. inversion Hnil.
  - exact Hin.
  - exact Hm.
  - eexists _, nm, entry. split; [apply lookup_insert_eq|].
    split; [exact Hlook|exact Heq].
Qed.

Lemma createNodesV2_returns_stored_witness :
  let h := Demo.host Demo.plainConfig Demo.testFiles in
  let run :=
    createNodesV2 h ["proj/phpunit.xml"; "nowhere/phpunit.xml"] None
      Demo.context {| disk := ∅; trace := [] |} in
  ∃ (r : CreateNodesResult) (m : gmap string ProjectConfiguration)
    (written : Store) (nm : option string) (entry : PhpUnitTargets),
    returned (fst run) = [("proj/phpunit.xml", r)]
    ∧ projectsOf r = Some m
    ∧ disk (snd run) !! cachePathOf h None = Some (JsonFile written)
    ∧ written !! "proj#test#test-ci" = Some entry
    ∧ m = {[ "proj" := projectOf "proj/phpunit.xml" nm entry ]}.
Proof.
  cbv zeta.
  destruct (returned
              (fst (createNodesV2 (Demo.host Demo.plainConfig Demo.testFiles)
                      ["proj/phpunit.xml"; "nowhere/phpunit.xml"] None
                      Demo.context {| disk := ∅; trace := [] |})))
    as [|[f r] rest] eqn:Hret; [vm_compute in Hret; discriminate Hret|].
  assert (Hshape : f = "proj/phpunit.xml" ∧ rest = []
                   ∧ is_Some (projectsOf r)).
  { vm_compute in Hret. injection Hret as <- <- <-. repeat split. eauto. }
  destruct Hshape as (-> & -> & [m Hm]).
  destruct (createNodesV2_returns_stored
              (Demo.host Demo.plainConfig Demo.testFiles)
              ["proj/phpunit.xml"; "nowhere/phpunit.xml"] None Demo.context
              {| disk := ∅; trace := [] |} "proj/phpunit.xml" r m)
    as (written & nm & entry & Hdisk & Hlook & Heq).
  - rewrite Hret. left.
  - exact Hm.
  - exists r, m, written, nm, entry. repeat split; assumption.
Defined.

(** ** Matchers *)

Lemma someMatcher_app {A} (m : A → result string bool) (a b : list A) :
  someMatcher m (a ++ b)
  = match someMatcher m a with
    | Ok false => someMatcher m b
    | r => r
    end.
Proof.
  induction a as [|x a IH]; [reflexivity|].
  cbn [app someMatcher]. fold (someMatcher m).
  destruct (m x) as [[|]|e]; [reflexivity|exact IH|reflexivity].
Qed.

Lemma createMatcherOf_array (M : Matchers) (items : list Pattern)
    (path : string) :
  createMatcherOf M (PatArray items) path
  = someMatcher (λ p, createMatcherOf M p path) items.
Proof. reflexivity. Qed.

(** X15: for [createMatcher], an array nested in an array of patterns
    counts as its patterns written in place, an array of one pattern as
    that pattern, and the empty array matches no path. *)
Theorem createMatcherOf_flattens (M : Matchers) (inner rest : list Pattern)
    (p : Pattern) (path : string) :
  createMatcherOf M (PatArray (PatArray inner :: rest)) path
  = createMatcherOf M (PatArray (inner ++ rest)) path
  ∧ createMatcherOf M (PatArray [p]) path = createMatcherOf M p path
  ∧ createMatcherOf M (PatArray []) path = Ok false.
Proof.
  split; [|split; [|reflexivity]].
  - rewrite (createMatcherOf_array M (inner ++ rest)), someMatcher_app.
    rewrite <- (createMatcherOf_array M inner).
    rewrite (createMatcherOf_array M (PatArray inner :: rest)).
    cbn [someMatcher]. fold (someMatcher (λ q, createMatcherOf M q path)).
    destruct (createMatcherOf M (PatArray inner) path) as [[|]|e];
      reflexivity.
  - rewrite createMatcherOf_array. cbn [someMatcher].
    destruct (createMatcherOf M p path) as [[|]|e]; reflexivity.
Qed.

(** X18: an array of patterns matches a path as soon as one pattern
    matches it and those before it do not, whatever follows, a pattern
    that would throw included. *)
Theorem createMatcherOf_first_match (M : Matchers)
    (before after : list Pattern) (p : Pattern) (path : string) :
  Forall (λ q, createMatcherOf M q path = Ok false) before →
  createMatcherOf M p path = Ok true →
  createMatcherOf M (PatArray (before ++ p :: after)) path = Ok true.
Proof.
  intros Hbefore Hp. rewrite createMatcherOf_array, someMatcher_app.
  assert (Hnone : someMatcher (λ q, createMatcherOf M q path) before
                  = Ok false).
  { induction Hbefore as [|q before Hq _ IH]; [reflexivity|].
    cbn [someMatcher]. rewrite Hq. exact IH. }
  rewrite Hnone. cbn [someMatcher]. rewrite Hp. reflexivity.
Qed.

Lemma createMatcherOf_first_match_witness :
  createMatcherOf Demo.matchers (PatString "[") "proj/tests/FooTest.php"
  = Err "Error matching proj/tests/FooTest.php with [: invalid pattern"
  ∧ createMatcherOf Demo.matchers
      (PatArray
         ([PatRegExp "vendor/"]
          ++ PatString "**/*Test.php" :: [PatString "["]))
      "proj/tests/FooTest.php"
    = Ok true.
Proof.
  split; [reflexivity|].
  apply (createMatcherOf_first_match Demo.matchers [PatRegExp "vendor/"]
           [PatString "["] (PatString "**/*Test.php")
           "proj/tests/FooTest.php").
  - repeat constructor.
  - reflexivity.
Defined.

(** The matcher of the plugin is [createMatcher] at the glob of the test
    files, given an engine that agrees with the model of that glob. *)
Lemma createMatcher_is_createMatcherOf (M : Matchers) (path : string) :
  minimatch M path "**/*Test.php"
  = Ok (Minimatch.globstarStar "Test.php" path) →
  createMatcherOf M (PatString "**/*Test.php") path
  = Ok (createMatcher path).
Proof. intros Hglob. cbn [createMatcherOf]. rewrite Hglob. reflexivity. Qed.

(** ** More on output subfolders *)

Lemma replaceAll_length (p : ascii → bool) (by_ : ascii) (s : string) :
  String.length (Js.replaceAll p by_ s) = String.length s.
Proof.
  induction s as [|a s IH]; [reflexivity|]. simpl. rewrite IH. reflexivity.
Qed.

(** X16: the subfolder token of a test file is as long as the path of the
    file relative to the project root and holds no slash, no back slash and
    no dot: it is one path segment, whatever the depth of the file. *)
Theorem outputSubfolder_one_segment (h : Host)
    (projectRoot testFile : string) :
  String.length (outputSubfolder h projectRoot testFile)
  = String.length (Path.relative (processCwd h) projectRoot testFile)
  ∧ Js.split "/" (outputSubfolder h projectRoot testFile)
    = [outputSubfolder h projectRoot testFile]
  ∧ Js.includesChar "\" (outputSubfolder h projectRoot testFile) = false
  ∧ Js.includesChar "." (outputSubfolder h projectRoot testFile) = false.
Proof.
  destruct (outputSubfolder_chars h projectRoot testFile) as (H1 & H2 & H3).
  cbv zeta in *. split; [|split; [apply split_none; exact H1|split]];
    [|exact H2|exact H3].
  unfold outputSubfolder. rewrite !replaceAll_length. reflexivity.
Qed.



Section PerFileTargets.

Variable h : Host.
Variables (ci : string) (base : TargetConfiguration) (testOutput : string)
  (coverageOutput : option string) (context : CreateNodesContext)
  (projectRoot : string).



End PerFileTargets.


